(** * mediphys_qc: the compliance and drift evaluation engine of [main.py]

    A shallow embedding of [QualityControlEngine] (configuration load,
    [check_compliance], [analyze_drift], [generate_plot]), of [main] up to
    the point where it hands its results to the database, the spreadsheet
    and the summary, and of the data generator of [generate_data.py],
    followed by the properties of the engine.

    Modelling conventions.
    - A Python [float] (the measured values, the numeric fields of the
      configuration, the regression slope) is an IEEE 754 binary64 number,
      [spec_float] at precision 53: signed zeros, infinities, NaN and the
      finite doubles.  Subtraction, addition, multiplication and division
      round to the nearest double, ties to even; comparisons are those of
      IEEE 754, so every comparison with NaN is false.  A decimal literal of
      the program or of the configuration is the double nearest to it.  An
      integer of the configuration or of the spreadsheet stands for the
      double it is converted to when it meets a float (exact below 2^53).
    - A blank cell of the [Value] column is read as NaN.  Rows whose date
      cell is blank are not modelled.
    - A timestamp ([datetime64[ns]]) is the integer count of nanoseconds
      since the epoch.
    - A Python [dict] with string keys is a [gmap string _].
    - A method that reads or writes [self] or raises is a function in the
      monad [M]: it takes the engine object and gives back an outcome (a
      value or a raised exception) together with the engine it leaves behind.
    - Calls into [logging], [sqlite3], [matplotlib] and the spreadsheet
      reader and writer are I/O on collaborators; they neither read nor
      write the engine object and are not part of the state.
    - [scipy.stats.linregress] is a library routine.  Which inputs it
      refuses and which it answers with NaN is modelled; the double it
      computes for the slope depends on the order in which numpy's kernels
      add up their terms and is a parameter [fit] of everything that calls
      the routine.  [ols_fit] is the evaluation that takes every sum from
      left to right; the worked inputs use it. *)

From Stdlib Require Import QArith Qabs ZArith Lia DecimalString SpecFloat.
From Stdlib Require Import Sorted.
From stdpp Require Import gmap strings list.

Local Open Scope string_scope.
Local Open Scope list_scope.

(** ** Exceptions and outcomes *)

Inductive exn : Type :=
| FileNotFoundError
| YAMLError
| KeyError (key : string)
| TypeError
| ValueError
| SystemExit (code : Z).

(** [except Exception] catches everything but [SystemExit]. *)
Definition is_Exception (e : exn) : bool :=
  match e with
  | SystemExit _ => false
  | _ => true
  end.

Inductive outcome (A : Type) : Type :=
| Return (a : A)
| Raise (e : exn).
Arguments Return {A} a.
Arguments Raise {A} e.

(** ** Python floats *)

Definition float : Type := spec_float.

Definition prec : Z := 53.
Definition emax : Z := 1024.

Definition NaN : float := S754_nan.
Definition zero : float := S754_zero false.

(** [a + b], [a - b], [a * b], [a / b] on two floats. *)
Definition fadd : float -> float -> float := SFadd prec emax.
Definition fsub : float -> float -> float := SFsub prec emax.
Definition fmul : float -> float -> float := SFmul prec emax.
Definition fdiv : float -> float -> float := SFdiv prec emax.

(** [abs(a)] *)
Definition fabs : float -> float := SFabs.

(** [a > b], [a <= b], [a == b] *)
Definition fgt (a b : float) : bool := SFltb b a.
Definition fle (a b : float) : bool := SFleb a b.
Definition feq (a b : float) : bool := SFeqb a b.

Definition is_nan (a : float) : bool :=
  match a with
  | S754_nan => true
  | _ => false
  end.

(** Neither NaN nor an infinity. *)
Definition is_finite (a : float) : bool :=
  match a with
  | S754_zero _ | S754_finite _ _ _ => true
  | _ => false
  end.

(** [float(z)] *)
Definition of_Z (z : Z) : float := binary_normalize prec emax z 0 false.

(** The literal [n]e-[k], for instance [dec 1045 1] for [104.5]: the double
    nearest to the decimal.  Both [n] and [10^k] are doubles themselves for
    the literals of this program, so the rounded quotient is that double. *)
Definition dec (n : Z) (k : nat) : float :=
  fdiv (of_Z n) (of_Z (10 ^ Z.of_nat k)).

(** The rational number a finite float stands for. *)
Definition exact (a : float) : Q :=
  match a with
  | S754_finite s m e =>
      let magnitude :=
        match e with
        | Zneg p => Qmake (Z.pos m) (2 ^ p)%positive
        | _ => inject_Z (Z.pos m * 2 ^ e)
        end in
      if s then Qopp magnitude else magnitude
  | _ => 0%Q
  end.

(** ** The configuration and the engine object *)

(** A scalar of the YAML document, as [yaml.safe_load] hands it over. *)
Inductive yaml_value : Type :=
| YNum (x : float)
| YStr (s : string)
| YNull.

(** [machine_id -> metric -> {target, tolerance_abs, unit}] *)
Abbreviation rule := (gmap string yaml_value) (only parsing).
Abbreviation config := (gmap string (gmap string (gmap string yaml_value))) (only parsing).

Record QualityControlEngine : Type := mkEngine {
  db_path : string;
  rules : config;
  drift_alerts : list string
}.

(** ** The monad of engine methods *)

Definition M (A : Type) : Type :=
  QualityControlEngine -> outcome A * QualityControlEngine.

Definition ret {A} (a : A) : M A := fun self => (Return a, self).
Definition raise {A} (e : exn) : M A := fun self => (Raise e, self).
Definition bind {A B} (m : M A) (k : A -> M B) : M B :=
  fun self =>
    match m self with
    | (Return a, self') => k a self'
    | (Raise e, self') => (Raise e, self')
    end.
Definition lift {A} (o : outcome A) : M A := fun self => (o, self).

Notation "x <- m ;; k" := (bind m (fun x => k))
  (at level 100, m at next level, right associativity).
Notation "m ;;; k" := (bind m (fun _ => k))
  (at level 100, right associativity).

(** [self.rules] *)
Definition get_rules : M config := fun self => (Return (rules self), self).

(** [self.drift_alerts.append(msg)] *)
Definition append_drift_alert (msg : string) : M unit :=
  fun self =>
    (Return tt, mkEngine (db_path self) (rules self) (drift_alerts self ++ [msg])).

(** [key in d] and [d[key]] on a dict; the latter raises [KeyError] when the
    key is missing. *)
Definition contains {A} (d : gmap string A) (key : string) : bool :=
  match d !! key with
  | Some _ => true
  | None => false
  end.

Definition getitem {A} (d : gmap string A) (key : string) : M A :=
  match d !! key with
  | Some v => ret v
  | None => raise (KeyError key)
  end.

(** ** Number formatting: [f"{x:.2f}"], [f"{x:.3f}"] *)

(** Nearest integer of a non-negative rational, ties to the even one. *)
Definition round_half_even (q : Q) : Z :=
  let n := Qnum q in
  let d := Z.pos (Qden q) in
  let fl := (n / d)%Z in
  let r2 := (2 * (n mod d))%Z in
  if (r2 <? d)%Z then fl
  else if (d <? r2)%Z then (fl + 1)%Z
  else if Z.even fl then fl else (fl + 1)%Z.

Definition digits (n : Z) : string :=
  NilZero.string_of_uint (N.to_uint (Z.to_N n)).

Fixpoint zeros (n : nat) : string :=
  match n with
  | O => ""
  | S n' => "0" +:+ zeros n'
  end.

(** A non-negative rational with [p >= 1] decimals. *)
Definition fixed (p : nat) (q : Q) : string :=
  let scale := (10 ^ Z.of_nat p)%Z in
  let m := round_half_even (q * inject_Z scale)%Q in
  let frac := digits (m mod scale) in
  digits (m / scale) +:+ "." +:+ zeros (p - String.length frac) +:+ frac.

(** Fixed-point rendering of a float: the decimals of the number the float
    stands for, correctly rounded; the sign is the sign bit. *)
Definition format_f (p : nat) (x : float) : string :=
  match x with
  | S754_nan => "nan"
  | S754_infinity s => (if s then "-" else "") +:+ "inf"
  | S754_zero s | S754_finite s _ _ =>
      (if s then "-" else "") +:+ fixed p (Qabs (exact x))
  end.

(** ** Python arithmetic between a float and a configuration scalar *)

(** [value - target] *)
Definition py_sub (value : float) (target : yaml_value) : M float :=
  match target with
  | YNum t => ret (fsub value t)
  | YStr _ | YNull => raise TypeError
  end.

(** [diff > tol] *)
Definition py_gt (diff : float) (tol : yaml_value) : M bool :=
  match tol with
  | YNum t => ret (fgt diff t)
  | YStr _ | YNull => raise TypeError
  end.

(** ** [QualityControlEngine.__init__] *)

(** [config_file] is what [open(config_path)] followed by [yaml.safe_load]
    gives: the parsed document or the exception raised on the way.
    [sys.exit(1)] raises [SystemExit].  [init_database] only talks to
    sqlite and swallows its errors. *)
Definition __init__ (config_file : outcome config) (db_path : string)
  : outcome QualityControlEngine :=
  match config_file with
  | Return loaded => Return (mkEngine db_path loaded [])
  | Raise FileNotFoundError => Raise (SystemExit 1)
  | Raise e => Raise e
  end.

(** ** [QualityControlEngine.check_compliance] *)

Definition check_compliance (machine metric : string) (value : float) : M string :=
  rules <- get_rules ;;
  missing <- (if negb (contains rules machine) then ret true
              else by_metric <- getitem rules machine ;;
                   ret (negb (contains by_metric metric))) ;;
  if missing : bool then ret "UNKNOWN_CONFIG"
  else
    by_metric <- getitem rules machine ;;
    rule <- getitem by_metric metric ;;
    target <- getitem rule "target" ;;
    tol <- getitem rule "tolerance_abs" ;;
    d <- py_sub value target ;;
    let diff := fabs d in
    gt <- py_gt diff tol ;;
    if gt : bool then ret ("FAIL (Dev: " +:+ format_f 2 diff +:+ ")")
    else ret "PASS".

(** ** [scipy.stats.linregress], as far as [analyze_drift] uses it *)

Definition amax (x : list Z) : Z := foldr Z.max (default 0%Z (head x)) x.
Definition amin (x : list Z) : Z := foldr Z.min (default 0%Z (head x)) x.

(** The slope the routine computes from x values that are not all the same
    and y values without NaN. *)
Definition regression : Type := list Z -> list float -> float.

(** The library routine is not part of the repository; this is its slope,
    the one component of the result [analyze_drift] looks at (the intercept,
    r, p and the standard error are unpacked and dropped).  As of SciPy 1.17:
    samples of different lengths are refused with a [ValueError]; a NaN
    among the observations makes every component of the result NaN, before
    anything else is looked at; so does a sample of fewer than two
    observations; x values that are all identical are refused with a
    [ValueError].  The x values of [analyze_drift] are integers. *)
Definition linregress (fit : regression) (x : list Z) (y : list float)
  : outcome float :=
  if negb (length x =? length y)%nat then Raise ValueError
  else if existsb is_nan y then Return NaN
  else if (length x <=? 1)%nat then Return NaN
  else if (amax x =? amin x)%Z then Raise ValueError
  else Return (fit x y).

(** One evaluation of the slope: [ssxym / ssxm], the two entries of
    [np.cov(x, y, bias=1)], with every sum taken from left to right. *)
Definition fsum (a : list float) : float := foldl fadd zero a.

Definition ols_fit : regression := fun x y =>
  let n := of_Z (Z.of_nat (length x)) in
  let xf := map of_Z x in
  let xmean := fdiv (fsum xf) n in
  let ymean := fdiv (fsum y) n in
  let dx := map (fun xi => fsub xi xmean) xf in
  let dy := map (fun yi => fsub yi ymean) y in
  let ssxm := fmul (fsum (zip_with fmul dx dx)) (fdiv (of_Z 1) n) in
  let ssxym := fmul (fsum (zip_with fmul dx dy)) (fdiv (of_Z 1) n) in
  fdiv ssxym ssxm.

(** ** [QualityControlEngine.analyze_drift] *)

Definition ns_per_day : Z := 86400000000000.

(** [dates.min()] *)
Definition series_min (dates : list Z) : Z := amin dates.

(** [(dates - dates.min()).dt.days]: the whole days of each difference. *)
Definition dt_days (dates : list Z) : list Z :=
  map (fun d => ((d - series_min dates) / ns_per_day)%Z) dates.

(** The literal [0.1]. *)
Definition drift_threshold : float := dec 1 1.

Definition analyze_drift (fit : regression) (dates : list Z) (values : list float)
    (machine metric : string) : M unit :=
  if (length values <? 5)%nat then ret tt
  else
    let days := dt_days dates in
    slope <- lift (linregress fit days values) ;;
    if fgt (fabs slope) drift_threshold then
      let alert_msg :=
        "[" +:+ machine +:+ "] " +:+ metric
          +:+ ": Significant Drift detected (Slope: "
          +:+ format_f 3 slope +:+ "/day)" in
      append_drift_alert alert_msg
    else ret tt.

(** ** [main] *)

Record MeasurementRecord : Type := mkRecord {
  Date : Z;
  Machine_ID : string;
  Metric : string;
  Value : float
}.

(** [try: ... except Exception: sys.exit(1)] *)
Definition try_or_exit {A} (o : outcome A) : outcome A :=
  match o with
  | Return a => Return a
  | Raise e => if is_Exception e then Raise (SystemExit 1) else Raise e
  end.

(** Step 1.  [input_file] is what [pd.read_excel] followed by
    [pd.to_datetime] on the date column gives. *)
Definition load_resources (config_file : outcome config)
    (input_file : outcome (list MeasurementRecord))
  : outcome (QualityControlEngine * list MeasurementRecord) :=
  try_or_exit
    match __init__ config_file "qc_history.db" with
    | Raise e => Raise e
    | Return engine =>
        match input_file with
        | Raise e => Raise e
        | Return df => Return (engine, df)
        end
    end.

(** The loop of step 2: one call per row, in row order. *)
Fixpoint compliance_loop (df : list MeasurementRecord) (results : list string)
  : M (list string) :=
  match df with
  | [] => ret results
  | row :: rest =>
      status <- check_compliance (Machine_ID row) (Metric row) (Value row) ;;
      compliance_loop rest (results ++ [status])
  end.

(** [df['QC_Status'] = results]: pandas refuses a list whose length is not
    the number of rows. *)
Definition set_QC_Status (df : list MeasurementRecord) (results : list string)
  : M (list (MeasurementRecord * string)) :=
  if (length results =? length df)%nat then ret (zip df results)
  else raise ValueError.

Definition run_checks (df : list MeasurementRecord)
  : M (list (MeasurementRecord * string)) :=
  results <- compliance_loop df [] ;;
  set_QC_Status df results.

(** Step 3.  [df.groupby(['Machine_ID', 'Metric'])] gives one group per
    distinct key, the keys in ascending order (pairs of strings, compared
    left to right), the rows of a group in their order in [df]. *)
Definition key_compare (a b : string * string) : comparison :=
  match String.compare (fst a) (fst b) with
  | Eq => String.compare (snd a) (snd b)
  | c => c
  end.

Fixpoint insert_key (k : string * string) (keys : list (string * string))
  : list (string * string) :=
  match keys with
  | [] => [k]
  | k' :: rest =>
      match key_compare k k' with
      | Lt => k :: keys
      | Eq => keys
      | Gt => k' :: insert_key k rest
      end
  end.

Definition groupby (df : list MeasurementRecord)
  : list ((string * string) * list MeasurementRecord) :=
  let keys := foldr insert_key [] (map (fun row => (Machine_ID row, Metric row)) df) in
  map (fun k => (k, filter (fun row => (Machine_ID row, Metric row) = k) df)) keys.

(** The loop over the groups.  [generate_plot] draws with matplotlib and
    catches whatever goes wrong there. *)
Fixpoint trend_loop (fit : regression)
    (groups : list ((string * string) * list MeasurementRecord)) : M unit :=
  match groups with
  | [] => ret tt
  | ((machine, metric), group_data) :: rest =>
      rules <- get_rules ;;
      known <- (if contains rules machine
                then by_metric <- getitem rules machine ;;
                     ret (contains by_metric metric)
                else ret false) ;;
      (if known : bool
       then analyze_drift fit (map Date group_data) (map Value group_data)
              machine metric
       else ret tt) ;;;
      trend_loop fit rest
  end.

(** Steps 2 and 3 on a loaded engine. *)
Definition evaluate (fit : regression) (df : list MeasurementRecord)
  : M (list (MeasurementRecord * string)) :=
  annotated <- run_checks df ;;
  trend_loop fit (groupby df) ;;;
  ret annotated.

(** What the run hands to step 4 (the database, the spreadsheet and the
    summary): the annotated rows and the alerts, or the exception that ends
    the process. *)
Definition hand_over {A} (r : outcome A * QualityControlEngine)
  : outcome (A * list string) :=
  match r with
  | (Return a, engine) => Return (a, drift_alerts engine)
  | (Raise e, _) => Raise e
  end.

Definition main (fit : regression) (config_file : outcome config)
    (input_file : outcome (list MeasurementRecord))
  : outcome (list (MeasurementRecord * string) * list string) :=
  match load_resources config_file input_file with
  | Raise e => Raise e
  | Return (engine, df) => hand_over (evaluate fit df engine)
  end.

(** ** Notions the properties are stated with *)

(** The message [analyze_drift] builds for an alert. *)
Definition drift_message (machine metric : string) (slope : float) : string :=
  "[" +:+ machine +:+ "] " +:+ metric
    +:+ ": Significant Drift detected (Slope: "
    +:+ format_f 3 slope +:+ "/day)".

(** [self] with one more alert at the end of its list. *)
Definition with_alert (self : QualityControlEngine) (msg : string)
  : QualityControlEngine :=
  mkEngine (db_path self) (rules self) (drift_alerts self ++ [msg]).

(** The rule held for a (machine, metric) pair: [self.rules[machine][metric]]
    when both keys are present. *)
Definition get_rule (r : config) (machine metric : string)
  : option (gmap string yaml_value) :=
  match r !! machine with
  | Some by_metric => by_metric !! metric
  | None => None
  end.

Definition FAIL (deviation : float) : string :=
  "FAIL (Dev: " +:+ format_f 2 deviation +:+ ")".

(** A rule both of whose numeric fields are present and are numbers. *)
Definition numeric_rule (rule : gmap string yaml_value) : bool :=
  match rule !! "target", rule !! "tolerance_abs" with
  | Some (YNum _), Some (YNum _) => true
  | _, _ => false
  end.

(** A configuration all of whose rules are numeric. *)
Definition numeric_config (r : config) : Prop :=
  map_Forall (fun _ by_metric =>
    map_Forall (fun _ rule => numeric_rule rule = true) by_metric) r.

#[global] Instance numeric_config_dec r : Decision (numeric_config r).
Proof. unfold numeric_config. apply _. Defined.

(** The key [groupby] files a row under. *)
Definition record_key (row : MeasurementRecord) : string * string :=
  (Machine_ID row, Metric row).

(** The order of the group keys. *)
Definition key_lt (a b : string * string) : Prop := key_compare a b = Lt.

(** The time between the earliest and the latest date of a group. *)
Definition span (dates : list Z) : Z := (amax dates - amin dates)%Z.


(** A group the trend loop analyses and the regression refuses: its pair has
    a rule, it has at least 5 rows, and it spans less than one whole day. *)
Definition degenerate (r : gmap string (gmap string (gmap string yaml_value)))
    (group : (string * string) * list MeasurementRecord) : Prop :=
  is_Some (get_rule r (fst (fst group)) (snd (fst group))) /\
  (5 <= length (snd group))%nat /\
  (span (map Date (snd group)) < ns_per_day)%Z.

(** Rows whose values are numbers. *)
Definition no_nan (df : list MeasurementRecord) : Prop :=
  Forall (fun row => is_nan (Value row) = false) df.

(** ** Inputs the development is run on *)

(** A configuration in the shape the data generator is written for. *)
Definition sample_rule (target tol : float) (unit : string) : gmap string yaml_value :=
  {[ "target" := YNum target; "tolerance_abs" := YNum tol; "unit" := YStr unit ]}.

Definition sample_config : gmap string (gmap string (gmap string yaml_value)) :=
  {[ "Linac_1" := {[ "Dose_Output" := sample_rule (of_Z 100) (of_Z 2) "cGy";
                     "Symmetry" := sample_rule (dec 5 1) (of_Z 1) "%" ]};
     "CT_Scanner_A" := {[ "Water_HU" := sample_rule (of_Z 0) (of_Z 4) "HU" ]} ]}.

Definition sample_engine : QualityControlEngine :=
  mkEngine "qc_history.db" sample_config [].

(** Midnight of the [n]-th day after 2023-01-01. *)
Definition day (n : Z) : Z := (1672531200000000000 + n * ns_per_day)%Z.

Definition five_days : list Z := [day 0; day 1; day 2; day 3; day 4].

(** 0.0, 0.2, 0.4, 0.6, 0.8 *)
Definition rising : list float := [of_Z 0; dec 2 1; dec 4 1; dec 6 1; dec 8 1].

(** The slope [ols_fit] gives for [rising] over [five_days]. *)
Definition rising_slope : float :=
  Eval vm_compute in ols_fit (dt_days five_days) rising.

(** Configurations with an invalid rule. *)
Definition negative_tolerance_config : gmap string (gmap string (gmap string yaml_value)) :=
  {[ "Linac_1" := {[ "Dose_Output" := sample_rule (of_Z 100) (of_Z (-2)) "cGy" ]} ]}.

Definition negative_tolerance_engine : QualityControlEngine :=
  mkEngine "qc_history.db" negative_tolerance_config [].

Definition text_target_config : gmap string (gmap string (gmap string yaml_value)) :=
  {[ "Linac_1" := {[ "Dose_Output" :=
       {[ "target" := YStr "100 cGy"; "tolerance_abs" := YNum (of_Z 2);
          "unit" := YStr "cGy" ]} ]} ]}.

Definition text_target_engine : QualityControlEngine :=
  mkEngine "qc_history.db" text_target_config [].

Definition on_target : MeasurementRecord :=
  mkRecord (day 0) "Linac_1" "Dose_Output" (of_Z 100).

(** Rules whose numbers are decimal fractions: target 0.1 with tolerance
    1.0, target 0.1 with tolerance 0.2, target 100 with tolerance 0.2. *)
Definition decimal_config : gmap string (gmap string (gmap string yaml_value)) :=
  {[ "Linac_1" := {[ "Symmetry" := sample_rule (dec 1 1) (of_Z 1) "%";
                     "Flatness" := sample_rule (dec 1 1) (dec 2 1) "%";
                     "Dose_Output" := sample_rule (of_Z 100) (dec 2 1) "cGy" ]} ]}.

Definition decimal_engine : QualityControlEngine :=
  mkEngine "qc_history.db" decimal_config [].

(** Five readings of one machine and metric taken on the same day. *)
Definition same_day_values : list float :=
  [of_Z 100; of_Z 101; of_Z 99; of_Z 100; of_Z 102].
Definition same_day_log : list MeasurementRecord :=
  map (fun v => mkRecord (day 0) "Linac_1" "Dose_Output" v) same_day_values.

(** Readings on two calendar days, less than 24 hours apart: one at 18:00
    on 2023-01-01, four at 06:00 on 2023-01-02. *)
Definition hour : Z := 3600000000000.
Definition overnight : list Z :=
  [(day 0 + 18 * hour)%Z; (day 1 + 6 * hour)%Z; (day 1 + 6 * hour)%Z;
   (day 1 + 6 * hour)%Z; (day 1 + 6 * hour)%Z].

(** ** [QualityControlEngine.generate_plot] *)

(** [target + tol] and [target - tol] on two configuration scalars: two
    strings are concatenated by [+], anything else that is not two numbers is
    a [TypeError]. *)
Definition py_add (a b : yaml_value) : M yaml_value :=
  match a, b with
  | YNum x, YNum y => ret (YNum (fadd x y))
  | YStr x, YStr y => ret (YStr (x +:+ y))
  | _, _ => raise TypeError
  end.

Definition py_sub_scalars (a b : yaml_value) : M yaml_value :=
  match a, b with
  | YNum x, YNum y => ret (YNum (fsub x y))
  | _, _ => raise TypeError
  end.

(** [try: body except Exception: handler] *)
Definition try_except {A} (body : M A) (handler : exn -> M A) : M A :=
  fun self =>
    match body self with
    | (Return a, self') => (Return a, self')
    | (Raise e, self') =>
        if is_Exception e then handler e self' else (Raise e, self')
    end.

(** What the method asks matplotlib to draw and where it saves it. *)
Record figure : Type := mkFigure {
  measured : list (Z * float);
  target_line : yaml_value;
  upper_limit : yaml_value;
  lower_limit : yaml_value;
  title : string;
  ylabel : yaml_value;
  saved_as : string
}.

Definition plot_path (machine metric : string) : string :=
  "qc_reports/plots/" +:+ machine +:+ "_" +:+ metric +:+ ".png".

(** [pyplot] stands for the calls into matplotlib and [os]: given the figure
    it either draws and saves it or raises.  The method itself returns
    nothing; the value here is the figure it has saved, if any.  The drawing
    calls are interleaved with the arithmetic in the source; since one
    handler catches whatever any of them raises, the figure is handed to
    [pyplot] in one piece. *)
Definition generate_plot (pyplot : figure -> outcome unit)
    (df_subset : list MeasurementRecord) (machine metric : string)
  : M (option figure) :=
  try_except
    (rules <- get_rules ;;
     by_metric <- getitem rules machine ;;
     rule <- getitem by_metric metric ;;
     target <- getitem rule "target" ;;
     tol <- getitem rule "tolerance_abs" ;;
     upper <- py_add target tol ;;
     lower <- py_sub_scalars target tol ;;
     unit <- getitem rule "unit" ;;
     let fig :=
       mkFigure (map (fun row => (Date row, Value row)) df_subset)
         target upper lower
         ("QC Trend: " +:+ machine +:+ " - " +:+ metric)
         unit (plot_path machine metric) in
     lift (pyplot fig) ;;;
     ret (Some fig))
    (fun _ => ret None).

(** The figure of a group under a rule with numeric target and tolerance. *)
Definition rule_figure (df_subset : list MeasurementRecord)
    (machine metric : string) (target tol : float) (unit : yaml_value) : figure :=
  mkFigure (map (fun row => (Date row, Value row)) df_subset)
    (YNum target) (YNum (fadd target tol)) (YNum (fsub target tol))
    ("QC Trend: " +:+ machine +:+ " - " +:+ metric)
    unit (plot_path machine metric).

(** ** [generate_data.generate] *)

(** The generator draws from [np.random.normal].  [draws n] is the standard
    normal deviate behind the [n]-th call, which returns
    [loc + scale * draws n]; the generator threads the number of calls made
    so far. *)
Definition G (A : Type) : Type := nat -> A * nat.

Definition gret {A} (a : A) : G A := fun n => (a, n).
Definition gbind {A B} (m : G A) (k : A -> G B) : G B :=
  fun n => let (a, n') := m n in k a n'.

Notation "x <~ m ;; k" := (gbind m (fun x => k))
  (at level 100, m at next level, right associativity).

Definition normal (draws : nat -> float) (loc scale : float) : G float :=
  fun n => (fadd loc (fmul scale (draws n)), S n).

(** [np.linspace(start, stop, num)]: the steps are [i * step + start] with
    [step = (stop - start) / (num - 1)] (or [i / (num - 1) * (stop - start)]
    when that step is zero), and the last one is [stop] itself. *)
Definition linspace (start stop : float) (num : nat) : list float :=
  let div := of_Z (Z.of_nat (num - 1)) in
  let delta := fsub stop start in
  let step := fdiv delta div in
  let y :=
    map (fun i =>
           let yi := of_Z (Z.of_nat i) in
           let scaled :=
             if (num <=? 1)%nat then fmul yi delta
             else if feq step zero then fmul (fdiv yi div) delta
             else fmul yi step in
           fadd scaled start)
        (seq 0 num) in
  if (1 <? num)%nat then <[(num - 1)%nat := stop]> y else y.

(** [start_date + timedelta(days=i)], with [start_date] 2023-01-01. *)
Definition date_of (i : nat) : Z := day (Z.of_nat i).

Fixpoint linac_loop (draws : nat -> float) (range : list nat)
    (data : list MeasurementRecord) : G (list MeasurementRecord) :=
  match range with
  | [] => gret data
  | i :: rest =>
      dose <~ normal draws (of_Z 100) (dec 5 1) ;;
      sym <~ normal draws (dec 5 1) (dec 2 1) ;;
      let dose := if (i =? 29)%nat then dec 1045 1 else dose in
      linac_loop draws rest
        (data ++ [mkRecord (date_of i) "Linac_1" "Dose_Output" dose;
                  mkRecord (date_of i) "Linac_1" "Symmetry" sym])
  end.

Fixpoint ct_loop (draws : nat -> float) (drift_values : list float)
    (range : list nat) (data : list MeasurementRecord)
  : G (list MeasurementRecord) :=
  match range with
  | [] => gret data
  | i :: rest =>
      noise <~ normal draws (of_Z 0) (dec 5 1) ;;
      let val := fadd (nth i drift_values zero) noise in
      ct_loop draws drift_values rest
        (data ++ [mkRecord (date_of i) "CT_Scanner_A" "Water_HU" val])
  end.

Fixpoint gamma_loop (draws : nat -> float) (range : list nat)
    (data : list MeasurementRecord) : G (list MeasurementRecord) :=
  match range with
  | [] => gret data
  | i :: rest =>
      val <~ normal draws (dec 25 1) (dec 1 1) ;;
      gamma_loop draws rest
        (data ++ [mkRecord (date_of i) "Gamma_Cam_SPECT" "Uniformity" val])
  end.

Fixpoint mri_loop (draws : nat -> float) (range : list nat)
    (data : list MeasurementRecord) : G (list MeasurementRecord) :=
  match range with
  | [] => gret data
  | i :: rest =>
      snr_val <~ normal draws (of_Z 50) (of_Z 1) ;;
      let snr_val := if (i =? 10)%nat || (i =? 20)%nat then of_Z 42 else snr_val in
      dist <~ normal draws (dec 2 1) (dec 5 2) ;;
      let dist_val := fabs dist in
      mri_loop draws rest
        (data ++ [mkRecord (date_of i) "MRI_Scanner_3T" "SNR_Coil_1" snr_val;
                  mkRecord (date_of i) "MRI_Scanner_3T" "Geometric_Distortion" dist_val])
  end.

(** The rows of the data frame the generator writes to the spreadsheet. *)
Definition generate (draws : nat -> float) : list MeasurementRecord :=
  fst ((data <~ linac_loop draws (seq 0 30) [] ;;
        data <~ ct_loop draws (linspace (of_Z 0) (of_Z 6) 30) (seq 0 30) data ;;
        data <~ gamma_loop draws (seq 0 30) data ;;
        mri_loop draws (seq 0 30) data) 0%nat).

(** ** Further inputs *)

(** Scenario 4: thirty daily readings rising evenly from 0 to 6. *)
Definition thirty_days : list Z := map (fun i => day (Z.of_nat i)) (seq 0 30).
Definition linspace_0_6 : list float := linspace (of_Z 0) (of_Z 6) 30.

(** A rule without its target, and a store with one sound and one malformed
    rule. *)
Definition no_target_rule : gmap string yaml_value :=
  {[ "tolerance_abs" := YNum (of_Z 2); "unit" := YStr "cGy" ]}.

Definition no_target_engine : QualityControlEngine :=
  mkEngine "qc_history.db" {[ "Linac_1" := {[ "Dose_Output" := no_target_rule ]} ]} [].

Definition mixed_config : gmap string (gmap string (gmap string yaml_value)) :=
  {[ "Linac_1" := {[ "Dose_Output" := sample_rule (of_Z 100) (of_Z 2) "cGy";
                     "Symmetry" :=
                       {[ "target" := YStr "0.5"; "tolerance_abs" := YNum (of_Z 1);
                          "unit" := YStr "%" ]} ]} ]}.

Definition symmetry_row : MeasurementRecord :=
  mkRecord (day 0) "Linac_1" "Symmetry" (dec 5 1).

(** Rows of a pair the sample configuration does not know. *)
Definition unknown_rows : list MeasurementRecord :=
  map (fun v => mkRecord (day 0) "MachineX" "MetricY" v) same_day_values.

(** A reading of 100.2. *)
Definition on_upper_limit : MeasurementRecord :=
  mkRecord (day 0) "Linac_1" "Dose_Output" (dec 1002 1).

(** Readings rising by 10 a day, the second one blank. *)
Definition rising_with_blank : list float :=
  [of_Z 0; NaN; of_Z 20; of_Z 30; of_Z 40].

(** A drawing backend that always succeeds, and a source of draws without
    noise. *)
Definition pyplot_ok (fig : figure) : outcome unit := Return tt.
Definition no_noise (n : nat) : float := zero.

(** ** Proof automation *)

Ltac reduce := cbn -[fsub fadd fabs fgt fle feq FAIL format_f String.append].

Ltac run_method :=
  unfold check_compliance, bind, get_rules, getitem, contains, ret, raise,
    py_sub, py_gt, lift; reduce.

(** * Properties *)

(** ** Comparisons of floats *)

Lemma SFcompare_antisym (a b : float) :
  SFcompare b a = match SFcompare a b with
                  | Some c => Some (CompOpp c)
                  | None => None
                  end.
Proof.
  destruct a as [[]|[]| |[] m1 e1], b as [[]|[]| |[] m2 e2]; simpl;
    try reflexivity;
    rewrite (Z.compare_antisym e1 e2);
    change (Pos.compare_cont Eq m2 m1) with (Pos.compare m2 m1);
    change (Pos.compare_cont Eq m1 m2) with (Pos.compare m1 m2);
    rewrite (Pos.compare_antisym m1 m2);
    destruct (e1 ?= e2)%Z; simpl; try reflexivity;
    destruct (m1 ?= m2)%positive; reflexivity.
Qed.

Lemma SFcompare_None (a b : float) :
  SFcompare a b = None -> is_nan a = true \/ is_nan b = true.
Proof.
  destruct a as [?|?| |? ? ?], b as [?|?| |? ? ?]; simpl; try discriminate; auto.
Qed.

(** Between two floats that are not NaN, [a <= b] is the negation of
    [a > b]. *)
Lemma fle_not_fgt (a b : float) :
  is_nan a = false -> is_nan b = false -> fle a b = negb (fgt a b).
Proof.
  intros Ha Hb. unfold fle, fgt, SFleb, SFltb. rewrite (SFcompare_antisym a b).
  destruct (SFcompare a b) as [[]|] eqn:E; try reflexivity.
  destruct (SFcompare_None a b E); congruence.
Qed.

Lemma fle_not_nan (a b : float) :
  fle a b = true -> is_nan a = false /\ is_nan b = false.
Proof.
  unfold fle, SFleb.
  destruct a as [?|?| |? ? ?], b as [?|?| |? ? ?]; simpl; try discriminate; auto.
Qed.

Lemma fgt_not_nan (a b : float) :
  fgt a b = true -> is_nan a = false /\ is_nan b = false.
Proof.
  unfold fgt, SFltb.
  destruct a as [?|?| |? ? ?], b as [?|?| |? ? ?]; simpl; try discriminate; auto.
Qed.

Lemma feq_not_fgt (a b : float) : feq a b = true -> fgt a b = false.
Proof.
  unfold feq, fgt, SFeqb, SFltb. rewrite (SFcompare_antisym a b).
  destruct (SFcompare a b) as [[]|]; try discriminate; reflexivity.
Qed.

Lemma is_nan_fabs (a : float) : is_nan (fabs a) = is_nan a.
Proof. destruct a; reflexivity. Qed.

(** An absolute value is above every negative number. *)
Lemma fabs_above_negative (d tol : float) :
  fgt zero tol = true -> is_nan d = false -> fgt (fabs d) tol = true.
Proof.
  unfold fgt, SFltb, zero, fabs.
  destruct tol as [[]|[]| |[] m e], d as [?|?| |? ? ?]; simpl;
    try discriminate; reflexivity.
Qed.

(** A number minus itself is [0.0]. *)
Lemma fsub_diag (a : float) : is_finite a = true -> fsub a a = zero.
Proof.
  destruct a as [[]|?| |s m e]; try discriminate; intros _; try reflexivity.
  unfold fsub, SFsub. cbv zeta. rewrite Z.sub_diag. reflexivity.
Qed.

(** ** Compliance *)

Lemma get_rule_Some r machine metric rule :
  get_rule r machine metric = Some rule ->
  exists by_metric, r !! machine = Some by_metric /\ by_metric !! metric = Some rule.
Proof.
  unfold get_rule. destruct (r !! machine) as [bm|]; [|discriminate].
  intros H. exists bm. split; [reflexivity | exact H].
Qed.

Lemma check_compliance_missing self machine metric value :
  get_rule (rules self) machine metric = None ->
  check_compliance machine metric value self = (Return "UNKNOWN_CONFIG", self).
Proof.
  unfold get_rule. run_method.
  destruct (rules self !! machine) as [bm|] eqn:E1; reduce; [|reflexivity].
  intros ->. reflexivity.
Qed.

(** With a rule in the store the method is the arithmetic on its two
    fields; the engine is handed back as it was. *)
Lemma check_compliance_present self machine metric value rule :
  get_rule (rules self) machine metric = Some rule ->
  check_compliance machine metric value self =
  ((target <- getitem rule "target" ;;
    tol <- getitem rule "tolerance_abs" ;;
    d <- py_sub value target ;;
    gt <- py_gt (fabs d) tol ;;
    if gt : bool then ret (FAIL (fabs d)) else ret "PASS") self).
Proof.
  intros (bm & E1 & E2)%get_rule_Some. run_method.
  rewrite E1. reduce. rewrite E2. reduce. reflexivity.
Qed.

Lemma check_compliance_numeric self machine metric value rule target tol :
  get_rule (rules self) machine metric = Some rule ->
  rule !! "target" = Some (YNum target) ->
  rule !! "tolerance_abs" = Some (YNum tol) ->
  check_compliance machine metric value self =
  (Return (if fgt (fabs (fsub value target)) tol
           then FAIL (fabs (fsub value target)) else "PASS"), self).
Proof.
  intros Hr Ht Htol. rewrite (check_compliance_present _ _ _ _ _ Hr).
  run_method. rewrite Ht, Htol. reduce.
  destruct (fgt (fabs (fsub value target)) tol); reflexivity.
Qed.

Lemma Return_inj {A} (a b : A) : Return a = Return b -> a = b.
Proof. intros H. congruence. Qed.

Lemma FAIL_neq_PASS d : FAIL d <> "PASS".
Proof. unfold FAIL. simpl. discriminate. Qed.

Lemma FAIL_neq_UNKNOWN d : FAIL d <> "UNKNOWN_CONFIG".
Proof. unfold FAIL. simpl. discriminate. Qed.

(** Whatever a present rule holds, the method does not answer
    [UNKNOWN_CONFIG]. *)
Lemma check_compliance_present_known self machine metric value rule :
  get_rule (rules self) machine metric = Some rule ->
  fst (check_compliance machine metric value self) <> Return "UNKNOWN_CONFIG".
Proof.
  intros Hr. rewrite (check_compliance_present _ _ _ _ _ Hr). run_method.
  destruct (rule !! "target") as [[t|s|]|]; reduce; try discriminate;
    destruct (rule !! "tolerance_abs") as [[tol|s'|]|]; reduce; try discriminate.
  destruct (fgt (fabs (fsub value t)) tol); reduce.
  - intros H%Return_inj. exact (FAIL_neq_UNKNOWN _ H).
  - discriminate.
Qed.

(** C1, as the code has it.  With a rule whose target and tolerance are
    numbers and whose tolerance is not negative, let the deviation be the
    double [abs(value - target)].  [check_compliance] answers [FAIL] with
    that deviation exactly when the deviation is greater than the tolerance.
    When the deviation is a number, it answers [PASS] exactly when the
    deviation is at most the tolerance.  A deviation equal to the tolerance
    passes.  There is no third answer. *)
Theorem check_compliance_tolerance self machine metric value rule target tol :
  get_rule (rules self) machine metric = Some rule ->
  rule !! "target" = Some (YNum target) ->
  rule !! "tolerance_abs" = Some (YNum tol) ->
  fle zero tol = true ->
  let deviation := fabs (fsub value target) in
  let result := fst (check_compliance machine metric value self) in
  (result = Return (FAIL deviation) <-> fgt deviation tol = true) /\
  (is_nan deviation = false ->
   (result = Return "PASS" <-> fle deviation tol = true)) /\
  (feq deviation tol = true -> result = Return "PASS") /\
  (result = Return (FAIL deviation) \/ result = Return "PASS").
Proof.
  intros Hr Ht Htol Hnonneg deviation result. subst result.
  rewrite (check_compliance_numeric _ _ _ _ _ _ _ Hr Ht Htol). reduce.
  fold deviation.
  destruct (fle_not_nan _ _ Hnonneg) as [_ Htolnum].
  destruct (fgt deviation tol) eqn:Hgt.
  - destruct (fgt_not_nan _ _ Hgt) as [Hdev _].
    split; [tauto|]. split; [|split].
    + intros _. rewrite (fle_not_fgt _ _ Hdev Htolnum), Hgt. simpl. split.
      * intros H%Return_inj. destruct (FAIL_neq_PASS _ H).
      * discriminate.
    + intros H%feq_not_fgt. congruence.
    + left. reflexivity.
  - split; [|split; [|split]].
    + split; [|discriminate].
      intros H%Return_inj. symmetry in H. destruct (FAIL_neq_PASS _ H).
    + intros Hdev. rewrite (fle_not_fgt _ _ Hdev Htolnum), Hgt. simpl. tauto.
    + reflexivity.
    + right. reflexivity.
Qed.

(** C2.  [check_compliance] answers [UNKNOWN_CONFIG] exactly when the rule
    store has no rule for the (machine, metric) pair, whatever the value;
    that answer is neither [PASS] nor a [FAIL]. *)
Theorem check_compliance_unknown_config self machine metric value :
  (fst (check_compliance machine metric value self) = Return "UNKNOWN_CONFIG"
   <-> get_rule (rules self) machine metric = None) /\
  "UNKNOWN_CONFIG" <> "PASS" /\
  (forall deviation, "UNKNOWN_CONFIG" <> FAIL deviation).
Proof.
  split; [split|split].
  - intros H. destruct (get_rule (rules self) machine metric) as [rule|] eqn:Hr;
      [|reflexivity].
    destruct (check_compliance_present_known _ _ _ value _ Hr H).
  - intros Hr. rewrite (check_compliance_missing _ _ _ _ Hr). reflexivity.
  - discriminate.
  - intros d H. symmetry in H. exact (FAIL_neq_UNKNOWN _ H).
Qed.

(** C10, as the code has it.  With a rule whose tolerance is a negative
    number, every value whose deviation [abs(value - target)] is a number
    fails; in particular the value equal to a finite target fails, with the
    deviation 0. *)
Theorem check_compliance_negative_tolerance self machine metric value rule target tol :
  get_rule (rules self) machine metric = Some rule ->
  rule !! "target" = Some (YNum target) ->
  rule !! "tolerance_abs" = Some (YNum tol) ->
  fgt zero tol = true ->
  let deviation := fabs (fsub value target) in
  (is_nan deviation = false ->
   fst (check_compliance machine metric value self) = Return (FAIL deviation)) /\
  (is_finite target = true ->
   fabs (fsub target target) = zero /\
   fst (check_compliance machine metric target self) = Return "FAIL (Dev: 0.00)").
Proof.
  intros Hr Ht Htol Hneg deviation.
  split.
  - intros Hdev. rewrite (check_compliance_numeric _ _ _ _ _ _ _ Hr Ht Htol).
    unfold deviation in *. rewrite is_nan_fabs in Hdev.
    rewrite (fabs_above_negative _ tol Hneg Hdev). reflexivity.
  - intros Hfin. rewrite (fsub_diag target Hfin). split; [reflexivity|].
    rewrite (check_compliance_numeric _ _ _ _ _ _ _ Hr Ht Htol).
    rewrite (fsub_diag target Hfin).
    change (fabs zero) with zero. rewrite Hneg. reflexivity.
Qed.

(** ** Extremes of the dates and of the day offsets *)

Lemma amin_le (x : list Z) (a : Z) : In a x -> (amin x <= a)%Z.
Proof.
  unfold amin. generalize (default 0%Z (head x)) as d.
  induction x as [|b x IH]; simpl; [tauto|].
  intros d [->|Hin]; [lia | specialize (IH d Hin); lia].
Qed.

Lemma amax_ge (x : list Z) (a : Z) : In a x -> (a <= amax x)%Z.
Proof.
  unfold amax. generalize (default 0%Z (head x)) as d.
  induction x as [|b x IH]; simpl; [tauto|].
  intros d [->|Hin]; [lia | specialize (IH d Hin); lia].
Qed.

Lemma foldr_min_In (l : list Z) (d : Z) :
  foldr Z.min d l = d \/ In (foldr Z.min d l) l.
Proof.
  induction l as [|c l IH]; simpl; [left; reflexivity|].
  destruct (Z.min_spec c (foldr Z.min d l)) as [[_ E]|[_ E]]; rewrite E.
  - right. left. reflexivity.
  - destruct IH as [IH|IH]; [left; exact IH | right; right; exact IH].
Qed.

Lemma amin_In (x : list Z) : x <> [] -> In (amin x) x.
Proof.
  destruct x as [|b x]; [congruence|]. intros _. unfold amin. simpl.
  destruct (Z.min_spec b (foldr Z.min b x)) as [[_ E]|[_ E]]; rewrite E.
  - left. reflexivity.
  - destruct (foldr_min_In x b) as [H|H]; [left; symmetry; exact H | right; exact H].
Qed.



(** [dates.min()] is the earliest date of the group. *)
Lemma series_min_least (dates : list Z) :
  dates <> [] ->
  In (series_min dates) dates /\ forall d, In d dates -> (series_min dates <= d)%Z.
Proof.
  intros Hne. split; [apply amin_In, Hne | intros d; apply amin_le].
Qed.

Lemma amin_le_amax (x : list Z) : (amin x <= amax x)%Z.
Proof.
  destruct x as [|a x]; [reflexivity|].
  pose proof (amin_le (a :: x) a (or_introl eq_refl)).
  pose proof (amax_ge (a :: x) a (or_introl eq_refl)). lia.
Qed.



Lemma dt_days_same_date (dates : list Z) (d : Z) :
  Forall (fun d' => d' = d) dates ->
  Forall (fun xi => xi = 0%Z) (dt_days dates).
Proof.
  intros Hall. unfold dt_days. apply Forall_map.
  destruct dates as [|d0 dates']; [constructor|].
  assert (Hmin : series_min (d0 :: dates') = d).
  { pose proof (series_min_least (d0 :: dates') ltac:(discriminate)) as [Hin _].
    rewrite Forall_forall in Hall. apply Hall. apply list_elem_of_In. exact Hin. }
  rewrite Hmin. eapply Forall_impl; [exact Hall|].
  intros d' ->. simpl. rewrite Z.sub_diag. reflexivity.
Qed.

Lemma amax_amin_constant (x : list Z) (c : Z) :
  Forall (fun xi => xi = c) x -> amax x = amin x.
Proof.
  intros Hall. destruct x as [|a x]; [reflexivity|].
  unfold amax, amin. simpl.
  apply Forall_cons in Hall as [-> Hall].
  induction Hall as [|b x -> _ IH]; simpl; [reflexivity | lia].
Qed.

Lemma foldr_min_shift (c d : Z) (l : list Z) :
  foldr Z.min (c + d)%Z (map (Z.add c) l) = (c + foldr Z.min d l)%Z.
Proof. induction l as [|a l IH]; simpl; [reflexivity | rewrite IH; lia]. Qed.

Lemma dt_days_shift (c : Z) (dates : list Z) :
  dt_days (map (Z.add c) dates) = dt_days dates.
Proof.
  destruct dates as [|d0 dates]; [reflexivity|].
  unfold dt_days, series_min, amin. rewrite map_map.
  change (default 0%Z (head (map (Z.add c) (d0 :: dates)))) with (c + d0)%Z.
  rewrite foldr_min_shift.
  change (default 0%Z (head (d0 :: dates))) with d0.
  apply map_ext. intros d. f_equal. lia.
Qed.

Lemma foldr_max_mono (f : Z -> Z) (d : Z) (l : list Z) :
  (forall a b, (a <= b)%Z -> (f a <= f b)%Z) ->
  foldr Z.max (f d) (map f l) = f (foldr Z.max d l).
Proof.
  intros Hf. induction l as [|a l IH]; simpl; [reflexivity|]. rewrite IH.
  destruct (Z.max_spec a (foldr Z.max d l)) as [[Hlt ->]|[Hle ->]].
  - apply Z.max_r, Hf. lia.
  - apply Z.max_l, Hf. lia.
Qed.

Lemma foldr_min_mono (f : Z -> Z) (d : Z) (l : list Z) :
  (forall a b, (a <= b)%Z -> (f a <= f b)%Z) ->
  foldr Z.min (f d) (map f l) = f (foldr Z.min d l).
Proof.
  intros Hf. induction l as [|a l IH]; simpl; [reflexivity|]. rewrite IH.
  destruct (Z.min_spec a (foldr Z.min d l)) as [[Hlt ->]|[Hle ->]].
  - apply Z.min_l, Hf. lia.
  - apply Z.min_r, Hf. lia.
Qed.

Lemma amax_map_mono (f : Z -> Z) (x : list Z) :
  x <> [] -> (forall a b, (a <= b)%Z -> (f a <= f b)%Z) ->
  amax (map f x) = f (amax x).
Proof.
  intros Hne Hf. destruct x as [|d0 x]; [congruence|].
  unfold amax. apply (foldr_max_mono f d0 (d0 :: x) Hf).
Qed.

Lemma amin_map_mono (f : Z -> Z) (x : list Z) :
  x <> [] -> (forall a b, (a <= b)%Z -> (f a <= f b)%Z) ->
  amin (map f x) = f (amin x).
Proof.
  intros Hne Hf. destruct x as [|d0 x]; [congruence|].
  unfold amin. apply (foldr_min_mono f d0 (d0 :: x) Hf).
Qed.

(** The extremes of the day offsets are the offsets of the extreme dates. *)
Lemma dt_days_extremes (dates : list Z) :
  dates <> [] ->
  amax (dt_days dates) = ((amax dates - amin dates) / ns_per_day)%Z /\
  amin (dt_days dates) = 0%Z.
Proof.
  intros Hne.
  assert (Hmono : forall a b, (a <= b)%Z ->
            ((a - series_min dates) / ns_per_day
             <= (b - series_min dates) / ns_per_day)%Z).
  { intros a b Hab. apply Z.div_le_mono; [reflexivity | lia]. }
  unfold dt_days.
  rewrite (amax_map_mono _ dates Hne Hmono), (amin_map_mono _ dates Hne Hmono).
  unfold series_min. rewrite Z.sub_diag. split; reflexivity.
Qed.


Lemma span_nonneg (dates : list Z) : (0 <= span dates)%Z.
Proof. unfold span. pose proof (amin_le_amax dates). lia. Qed.

(** The day offsets are all the same exactly when the group spans less than
    one whole day. *)
Lemma dt_days_span (dates : list Z) :
  dates <> [] ->
  (amax (dt_days dates) =? amin (dt_days dates))%Z = (span dates <? ns_per_day)%Z.
Proof.
  intros Hne. destruct (dt_days_extremes dates Hne) as [-> ->].
  fold (span dates). pose proof (span_nonneg dates) as Hspan.
  assert (Hpos : (0 < ns_per_day)%Z) by reflexivity.
  destruct (Z.ltb_spec (span dates) ns_per_day) as [H|H].
  - rewrite Z.div_small by lia. reflexivity.
  - apply Z.eqb_neq.
    assert (1 <= span dates / ns_per_day)%Z
      by (apply Z.div_le_lower_bound; lia).
    lia.
Qed.

Lemma span_constant (dates : list Z) (d : Z) :
  Forall (fun d' => d' = d) dates -> span dates = 0%Z.
Proof.
  intros Hall. unfold span. rewrite (amax_amin_constant dates d Hall). lia.
Qed.

(** ** Drift *)

Lemma analyze_drift_below_minimum fit dates values machine metric :
  (length values <? 5)%nat = true ->
  analyze_drift fit dates values machine metric = ret tt.
Proof. intros H. unfold analyze_drift. rewrite H. reflexivity. Qed.

(** C3.  A group of fewer than 5 values gives no alert and no error,
    whatever the dates and the values: the method returns and the engine,
    its alert list included, is as before. *)
Theorem analyze_drift_short fit dates values machine metric self :
  (length values < 5)%nat ->
  analyze_drift fit dates values machine metric self = (Return tt, self) /\
  drift_alerts (snd (analyze_drift fit dates values machine metric self))
  = drift_alerts self.
Proof.
  intros H. apply Nat.ltb_lt in H.
  rewrite (analyze_drift_below_minimum fit dates values machine metric H).
  split; reflexivity.
Qed.

Lemma analyze_drift_long fit dates values machine metric self :
  (5 <= length values)%nat ->
  analyze_drift fit dates values machine metric self =
  match linregress fit (dt_days dates) values with
  | Return slope =>
      if fgt (fabs slope) drift_threshold
      then (Return tt, with_alert self (drift_message machine metric slope))
      else (Return tt, self)
  | Raise e => (Raise e, self)
  end.
Proof.
  intros H. unfold analyze_drift.
  destruct (Nat.ltb_spec (length values) 5) as [Hlt|_]; [lia|].
  unfold bind, lift.
  destruct (linregress fit (dt_days dates) values) as [slope|e]; [|reflexivity].
  destruct (fgt (fabs slope) drift_threshold); reflexivity.
Qed.

Lemma with_alert_changes self msg :
  drift_alerts (with_alert self msg) <> drift_alerts self.
Proof.
  unfold with_alert. simpl. intros H.
  apply (f_equal (@length string)) in H. rewrite length_app in H.
  simpl in H. lia.
Qed.

(** C6.  For a group of at least 5 values on which the regression gives a
    slope, an alert is produced exactly when [abs(slope) > 0.1], the
    comparison being that of doubles and [0.1] the double of that literal
    (which is a little above one tenth); the alert is the message naming the
    machine, the metric and the slope (three decimals), appended to the
    engine's alert list; when [abs(slope) <= 0.1] the engine is unchanged.
    For a slope that is a number, one of the two comparisons holds. *)
Theorem analyze_drift_threshold fit dates values machine metric self slope :
  (5 <= length values)%nat ->
  linregress fit (dt_days dates) values = Return slope ->
  let after := analyze_drift fit dates values machine metric self in
  fst after = Return tt /\
  (drift_alerts (snd after) <> drift_alerts self
   <-> fgt (fabs slope) drift_threshold = true) /\
  (fgt (fabs slope) drift_threshold = true ->
   snd after = with_alert self (drift_message machine metric slope)) /\
  (fle (fabs slope) drift_threshold = true -> snd after = self) /\
  (is_nan slope = false ->
   (fgt (fabs slope) drift_threshold = false
    <-> fle (fabs slope) drift_threshold = true)) /\
  drift_threshold = S754_finite false 7205759403792794 (-56) /\
  (exact drift_threshold == 3602879701896397 # 36028797018963968)%Q.
Proof.
  intros Hlen Hfit after. subst after.
  rewrite (analyze_drift_long _ _ _ _ _ _ Hlen), Hfit.
  assert (Hthr : is_nan drift_threshold = false) by reflexivity.
  assert (Hcmp : is_nan slope = false ->
            fle (fabs slope) drift_threshold
            = negb (fgt (fabs slope) drift_threshold)).
  { intros Hs. apply fle_not_fgt; [rewrite is_nan_fabs; exact Hs | exact Hthr]. }
  assert (Hle : fle (fabs slope) drift_threshold = true ->
            fgt (fabs slope) drift_threshold = false).
  { intros H. destruct (fle_not_nan _ _ H) as [Hs _]. rewrite is_nan_fabs in Hs.
    rewrite (Hcmp Hs) in H. destruct (fgt (fabs slope) drift_threshold);
      [discriminate H | reflexivity]. }
  split; [destruct (fgt (fabs slope) drift_threshold); reflexivity|].
  split.
  { split.
    - destruct (fgt (fabs slope) drift_threshold); [reflexivity|].
      intros H. destruct (H eq_refl).
    - intros ->. apply with_alert_changes. }
  split; [intros ->; reflexivity|].
  split; [intros H; rewrite (Hle H); reflexivity|].
  split.
  { intros Hs. rewrite (Hcmp Hs).
    destruct (fgt (fabs slope) drift_threshold); simpl; split; congruence. }
  split; vm_compute; reflexivity.
Qed.

(** *** What the library routine answers *)

Lemma linregress_nan fit x y :
  length x = length y -> existsb is_nan y = true ->
  linregress fit x y = Return NaN.
Proof.
  intros Hlen Hy. unfold linregress. rewrite Hlen, Nat.eqb_refl, Hy. reflexivity.
Qed.

Lemma linregress_regular fit x y :
  length x = length y -> (2 <= length x)%nat -> existsb is_nan y = false ->
  linregress fit x y
  = if (amax x =? amin x)%Z then Raise ValueError else Return (fit x y).
Proof.
  intros Hlen H2 Hy. unfold linregress. rewrite <- Hlen, Nat.eqb_refl, Hy. simpl.
  destruct (Nat.leb_spec (length x) 1) as [H|_]; [lia | reflexivity].
Qed.

(** [analyze_drift] on a group of at least 5 records, by the span of its
    dates. *)
Lemma analyze_drift_by_span fit dates values machine metric self :
  (5 <= length values)%nat ->
  length dates = length values ->
  analyze_drift fit dates values machine metric self =
  if existsb is_nan values then (Return tt, self)
  else if (span dates <? ns_per_day)%Z then (Raise ValueError, self)
  else
    (Return tt,
     if fgt (fabs (fit (dt_days dates) values)) drift_threshold
     then with_alert self
            (drift_message machine metric (fit (dt_days dates) values))
     else self).
Proof.
  intros Hlen Hsame.
  assert (Hne : dates <> []) by (intros ->; simpl in Hsame; lia).
  assert (Hx : length (dt_days dates) = length values)
    by (unfold dt_days; rewrite length_map; exact Hsame).
  rewrite (analyze_drift_long _ _ _ _ _ _ Hlen).
  destruct (existsb is_nan values) eqn:Hnan.
  - rewrite (linregress_nan _ _ _ Hx Hnan). reflexivity.
  - rewrite (linregress_regular _ _ _ Hx ltac:(lia) Hnan), (dt_days_span dates Hne).
    destruct (span dates <? ns_per_day)%Z; [reflexivity|].
    destruct (fgt (fabs (fit (dt_days dates) values)) drift_threshold); reflexivity.
Qed.


(** When every date of a group of at least 5 numbers is the same, all day
    offsets are 0, the regression refuses them, and the error leaves the
    method. *)
Lemma analyze_drift_same_date fit dates values machine metric self d :
  (5 <= length values)%nat ->
  length dates = length values ->
  existsb is_nan values = false ->
  Forall (fun d' => d' = d) dates ->
  analyze_drift fit dates values machine metric self = (Raise ValueError, self).
Proof.
  intros Hlen Hsame Hnan Hall.
  rewrite (analyze_drift_by_span _ _ _ _ _ _ Hlen Hsame), Hnan,
          (span_constant dates d Hall).
  reflexivity.
Qed.

(** ** Effects on the engine *)

Lemma check_compliance_self machine metric value self :
  snd (check_compliance machine metric value self) = self.
Proof.
  destruct (get_rule (rules self) machine metric) as [rule|] eqn:Hr.
  - rewrite (check_compliance_present _ _ _ _ _ Hr). run_method.
    destruct (rule !! "target") as [[t|s|]|]; reduce; try reflexivity;
      destruct (rule !! "tolerance_abs") as [[tol|s'|]|]; reduce; try reflexivity.
    destruct (fgt (fabs (fsub value t)) tol); reflexivity.
  - rewrite (check_compliance_missing _ _ _ _ Hr). reflexivity.
Qed.

Lemma check_compliance_rules_only machine metric value r db alerts db' alerts' :
  fst (check_compliance machine metric value (mkEngine db r alerts))
  = fst (check_compliance machine metric value (mkEngine db' r alerts')).
Proof.
  destruct (get_rule r machine metric) as [rule|] eqn:Hr.
  - rewrite (check_compliance_present (mkEngine db r alerts) _ _ _ _ Hr),
            (check_compliance_present (mkEngine db' r alerts') _ _ _ _ Hr).
    run_method.
    destruct (rule !! "target") as [[t|s|]|]; reduce; try reflexivity;
      destruct (rule !! "tolerance_abs") as [[tol|s'|]|]; reduce; try reflexivity.
    destruct (fgt (fabs (fsub value t)) tol); reflexivity.
  - rewrite (check_compliance_missing (mkEngine db r alerts) _ _ _ Hr),
            (check_compliance_missing (mkEngine db' r alerts') _ _ _ Hr).
    reflexivity.
Qed.

Lemma engine_eta self :
  self = mkEngine (db_path self) (rules self) (drift_alerts self ++ []).
Proof. destruct self. simpl. rewrite app_nil_r. reflexivity. Qed.

(** The outcome of [analyze_drift] and the alerts it adds are fixed by its
    arguments; of the engine it only extends the alert list. *)
Lemma analyze_drift_frame fit dates values machine metric :
  exists (result : outcome unit) (new_alerts : list string),
    (length new_alerts <= 1)%nat /\
    forall self,
      analyze_drift fit dates values machine metric self
      = (result,
         mkEngine (db_path self) (rules self) (drift_alerts self ++ new_alerts)).
Proof.
  destruct (Nat.ltb_spec (length values) 5) as [Hlt|Hge].
  - exists (Return tt), []. split; [simpl; lia|]. intros self.
    apply Nat.ltb_lt in Hlt.
    rewrite (analyze_drift_below_minimum _ _ _ machine metric Hlt).
    unfold ret. f_equal. apply engine_eta.
  - destruct (linregress fit (dt_days dates) values) as [slope|e] eqn:Hfit.
    + destruct (fgt (fabs slope) drift_threshold) eqn:Hcmp.
      * exists (Return tt), [drift_message machine metric slope].
        split; [simpl; lia|]. intros self.
        rewrite (analyze_drift_long _ _ _ _ _ _ Hge), Hfit, Hcmp. reflexivity.
      * exists (Return tt), []. split; [simpl; lia|]. intros self.
        rewrite (analyze_drift_long _ _ _ _ _ _ Hge), Hfit, Hcmp.
        f_equal. apply engine_eta.
    + exists (Raise e), []. split; [simpl; lia|]. intros self.
      rewrite (analyze_drift_long _ _ _ _ _ _ Hge), Hfit. f_equal. apply engine_eta.
Qed.

(** C9, as the code has it.  [check_compliance] leaves the engine as it
    found it and its answer depends on the rule store and its arguments
    only.  [analyze_drift] is a function of its arguments as far as its
    outcome and the alert it raises are concerned, and it never touches the
    rule store, but it is not free of effects: the alert, when there is one,
    is appended to the engine's [drift_alerts] list. *)
Theorem engine_effects :
  (forall machine metric value self,
     snd (check_compliance machine metric value self) = self) /\
  (forall machine metric value r db alerts db' alerts',
     fst (check_compliance machine metric value (mkEngine db r alerts))
     = fst (check_compliance machine metric value (mkEngine db' r alerts'))) /\
  (forall fit dates values machine metric,
     exists (result : outcome unit) (new_alerts : list string),
       (length new_alerts <= 1)%nat /\
       forall self,
         analyze_drift fit dates values machine metric self
         = (result,
            mkEngine (db_path self) (rules self) (drift_alerts self ++ new_alerts))).
Proof.
  split; [exact check_compliance_self | split; [exact check_compliance_rules_only|]].
  exact analyze_drift_frame.
Qed.

(** ** Loading and the compliance loop *)

Lemma compliance_loop_self df results self :
  snd (compliance_loop df results self) = self.
Proof.
  revert results. induction df as [|row rest IH]; intros results; simpl;
    [reflexivity|].
  unfold bind.
  pose proof (check_compliance_self (Machine_ID row) (Metric row) (Value row) self) as Hs.
  destruct (check_compliance _ _ _ self) as [[status|e] self']; simpl in Hs;
    subst self'; [apply IH | reflexivity].
Qed.

Lemma run_checks_self df self : snd (run_checks df self) = self.
Proof.
  unfold run_checks, bind.
  pose proof (compliance_loop_self df [] self) as Hs.
  destruct (compliance_loop df [] self) as [[results|e] self']; simpl in Hs;
    subst self'; [|reflexivity].
  unfold set_QC_Status. destruct (length results =? length df)%nat; reflexivity.
Qed.

Lemma analyze_drift_rules fit dates values machine metric self :
  rules (snd (analyze_drift fit dates values machine metric self)) = rules self.
Proof.
  destruct (analyze_drift_frame fit dates values machine metric)
    as (result & new_alerts & _ & H).
  rewrite H. reflexivity.
Qed.

Lemma trend_loop_rules fit groups self :
  rules (snd (trend_loop fit groups self)) = rules self.
Proof.
  revert self. induction groups as [|[[machine metric] group_data] rest IH];
    intros self; [reflexivity|].
  simpl. unfold bind at 1. unfold get_rules.
  assert (Hknown : exists known : bool,
    (if contains (rules self) machine
     then by_metric <- getitem (rules self) machine ;;
          ret (contains by_metric metric)
     else ret false) self = (Return known, self)).
  { unfold contains at 1, getitem, bind, ret.
    destruct (rules self !! machine) as [bm|]; eauto. }
  destruct Hknown as [known Hknown]. unfold bind at 1. rewrite Hknown.
  unfold bind. destruct known.
  - pose proof (analyze_drift_rules fit (map Date group_data) (map Value group_data)
                  machine metric self) as Hr.
    destruct (analyze_drift fit _ _ machine metric self) as [[[]|e] self'];
      simpl in Hr; [rewrite IH|]; exact Hr.
  - unfold ret. apply IH.
Qed.

(** The rule store is the loaded document for the whole of the run. *)
Lemma evaluate_rules fit df self : rules (snd (evaluate fit df self)) = rules self.
Proof.
  unfold evaluate, bind.
  pose proof (run_checks_self df self) as Hs.
  destruct (run_checks df self) as [[annotated|e] self']; simpl in Hs; subst self';
    [|reflexivity].
  pose proof (trend_loop_rules fit (groupby df) self) as Hr.
  destruct (trend_loop fit (groupby df) self) as [[[]|e] self']; exact Hr.
Qed.

(** C7, as the code has it.  Loading looks at no rule.  The run ends with
    exit status 1 before any record is evaluated exactly when reading the
    configuration or the input raised; every parsed configuration, whatever
    its rules hold, becomes the rule store as it is, the compliance loop and
    the trend loop run on it, and it is still the rule store when they are
    done. *)
Theorem load_resources_no_validation :
  (forall loaded df,
     load_resources (Return loaded) (Return df)
     = Return (mkEngine "qc_history.db" loaded [], df)) /\
  (forall fit loaded df,
     main fit (Return loaded) (Return df)
     = hand_over (evaluate fit df (mkEngine "qc_history.db" loaded []))) /\
  (forall fit loaded df,
     rules (snd (evaluate fit df (mkEngine "qc_history.db" loaded []))) = loaded) /\
  (forall fit e input,
     main fit (Raise e) input
     = Raise (SystemExit (match e with SystemExit c => c | _ => 1%Z end))) /\
  (forall fit loaded e,
     main fit (Return loaded) (Raise e)
     = Raise (SystemExit (match e with SystemExit c => c | _ => 1%Z end))).
Proof.
  split; [reflexivity | split; [reflexivity | split; [|split]]].
  - intros fit loaded df. apply evaluate_rules.
  - intros fit [] input; reflexivity.
  - intros fit loaded []; reflexivity.
Qed.

Lemma numeric_config_rule r machine metric rule :
  numeric_config r ->
  get_rule r machine metric = Some rule ->
  exists target tol,
    rule !! "target" = Some (YNum target) /\
    rule !! "tolerance_abs" = Some (YNum tol).
Proof.
  intros Hcfg (bm & E1 & E2)%get_rule_Some.
  pose proof (map_Forall_lookup_1 _ _ _ _ (map_Forall_lookup_1 _ _ _ _ Hcfg E1) E2)
    as Hnum.
  unfold numeric_rule in Hnum.
  destruct (rule !! "target") as [[t|?|]|]; try discriminate.
  destruct (rule !! "tolerance_abs") as [[tol|?|]|]; try discriminate.
  exists t, tol. split; reflexivity.
Qed.

(** With numeric rules every call answers with a status. *)
Lemma check_compliance_total self machine metric value :
  numeric_config (rules self) ->
  exists status,
    check_compliance machine metric value self = (Return status, self).
Proof.
  intros Hcfg. destruct (get_rule (rules self) machine metric) as [rule|] eqn:Hr.
  - destruct (numeric_config_rule _ _ _ _ Hcfg Hr) as (t & tol & Ht & Htol).
    rewrite (check_compliance_numeric _ _ _ _ _ _ _ Hr Ht Htol). eauto.
  - rewrite (check_compliance_missing _ _ _ _ Hr). eauto.
Qed.

Lemma compliance_loop_statuses self df results :
  numeric_config (rules self) ->
  exists statuses,
    compliance_loop df results self = (Return (results ++ statuses), self) /\
    Forall2 (fun row status =>
               check_compliance (Machine_ID row) (Metric row) (Value row) self
               = (Return status, self)) df statuses.
Proof.
  intros Hcfg. revert results.
  induction df as [|row rest IH]; intros results; simpl.
  - exists []. rewrite app_nil_r. split; [reflexivity | constructor].
  - destruct (check_compliance_total self (Machine_ID row) (Metric row) (Value row) Hcfg)
      as [status Hstatus].
    destruct (IH (results ++ [status])) as (statuses & Hloop & Hall).
    exists (status :: statuses). split.
    + unfold bind. rewrite Hstatus, Hloop, <- app_assoc. reflexivity.
    + constructor; assumption.
Qed.

(** C8, as the code has it.  On a configuration whose rules have a number
    as target and as tolerance, the compliance step returns the input rows,
    each paired with exactly one status, in the order of the input: the row
    at position [i] carries the answer of [check_compliance] for that row,
    whether or not a rule matches it. *)
Theorem run_checks_one_result_per_record self df :
  numeric_config (rules self) ->
  exists annotated,
    run_checks df self = (Return annotated, self) /\
    length annotated = length df /\
    map fst annotated = df /\
    forall i row, df !! i = Some row ->
      exists status,
        annotated !! i = Some (row, status) /\
        fst (check_compliance (Machine_ID row) (Metric row) (Value row) self)
        = Return status.
Proof.
  intros Hcfg.
  destruct (compliance_loop_statuses self df [] Hcfg) as (statuses & Hloop & Hall).
  simpl in Hloop.
  pose proof (Forall2_length _ _ _ Hall) as Hlen.
  exists (zip df statuses). split; [|split; [|split]].
  - unfold run_checks, bind. rewrite Hloop. unfold set_QC_Status.
    rewrite <- Hlen, Nat.eqb_refl. reflexivity.
  - rewrite length_zip. lia.
  - apply (fst_zip df statuses). lia.
  - intros i row Hrow.
    destruct (Forall2_lookup_l _ _ _ _ _ Hall Hrow) as (status & Hst & Hcall).
    exists status. split.
    + apply lookup_zip_with_Some. exists row, status. auto.
    + rewrite Hcall. reflexivity.
Qed.

(** * Worked inputs *)

Lemma sample_config_numeric : numeric_config sample_config.
Proof. apply (bool_decide_unpack _). vm_compute. exact I. Qed.

(** The scenarios of the specification. *)
Example scenario_1 :
  check_compliance "Linac_1" "Dose_Output" (dec 1045 1) sample_engine
  = (Return "FAIL (Dev: 4.50)", sample_engine).
Proof. vm_compute. reflexivity. Qed.

Example scenario_2 :
  check_compliance "Linac_1" "Dose_Output" (dec 1002 1) sample_engine
  = (Return "PASS", sample_engine).
Proof. vm_compute. reflexivity. Qed.

Example scenario_3 :
  check_compliance "MachineX" "MetricY" (dec 1045 1) sample_engine
  = (Return "UNKNOWN_CONFIG", sample_engine).
Proof. vm_compute. reflexivity. Qed.

Example scenario_6 fit :
  analyze_drift fit [day 0; day 1; day 2; day 3] [of_Z 0; of_Z 10; of_Z 20; of_Z 30]
    "CT_Scanner_A" "Water_HU" sample_engine
  = (Return tt, sample_engine).
Proof. vm_compute. reflexivity. Qed.

Example scenario_4 :
  analyze_drift ols_fit thirty_days linspace_0_6 "CT_Scanner_A" "Water_HU" sample_engine
  = (Return tt,
     with_alert sample_engine
       "[CT_Scanner_A] Water_HU: Significant Drift detected (Slope: 0.207/day)").
Proof. vm_compute. reflexivity. Qed.

(** Whole days are counted from the earliest timestamp, not from midnight:
    readings less than 24 hours apart share the offset 0 even across a
    change of date. *)
Example overnight_offsets fit :
  dt_days overnight = [0; 0; 0; 0; 0]%Z /\
  fst (analyze_drift fit overnight same_day_values "Linac_1" "Dose_Output" sample_engine)
  = Raise ValueError.
Proof. split; vm_compute; reflexivity. Qed.

Example tolerance_boundary :
  fst (check_compliance "Linac_1" "Dose_Output" (of_Z 102) sample_engine)
  = Return "PASS".
Proof. vm_compute. reflexivity. Qed.

(** The deviation is the rounded difference.  1.1 - 0.1 is 1.0 in doubles,
    so 1.1 passes a tolerance of 1.0 around 0.1; 100.2 - 100 is a little
    more than the double 0.2, so 100.2 fails a tolerance of 0.2 around 100;
    0.355 - 0.1 is a little more than 0.255 and is shown as 0.26. *)
Example rounded_deviations :
  fsub (dec 11 1) (dec 1 1) = of_Z 1 /\
  fst (check_compliance "Linac_1" "Symmetry" (dec 11 1) decimal_engine)
  = Return "PASS" /\
  fgt (fsub (dec 1002 1) (of_Z 100)) (dec 2 1) = true /\
  fst (check_compliance "Linac_1" "Dose_Output" (dec 1002 1) decimal_engine)
  = Return "FAIL (Dev: 0.20)" /\
  fst (check_compliance "Linac_1" "Flatness" (dec 355 3) decimal_engine)
  = Return "FAIL (Dev: 0.26)".
Proof. repeat split; vm_compute; reflexivity. Qed.

(** An infinite reading fails and is shown as [inf]. *)
Example infinite_reading :
  fst (check_compliance "Linac_1" "Dose_Output" (S754_infinity false) sample_engine)
  = Return "FAIL (Dev: inf)".
Proof. vm_compute. reflexivity. Qed.

(** A slope that is the double 0.1 itself gives no alert. *)
Example slope_at_threshold :
  analyze_drift (fun _ _ => dec 1 1) five_days rising
    "CT_Scanner_A" "Water_HU" sample_engine
  = (Return tt, sample_engine).
Proof. vm_compute. reflexivity. Qed.

(** Readings 100, 100.1, 100.2, 100.3, 100.4 on five consecutive days, each
    computed as [100 + 0.1 * day]: with the sums taken from left to right
    the slope comes out a little above the double 0.1, and there is an
    alert. *)
Example slope_by_rounding :
  format_f 17
    (ols_fit (dt_days five_days)
       (map (fun i => fadd (of_Z 100) (fmul (dec 1 1) (of_Z i))) [0; 1; 2; 3; 4]%Z))
  = "0.10000000000000142" /\
  drift_alerts
    (snd (analyze_drift ols_fit five_days
            (map (fun i => fadd (of_Z 100) (fmul (dec 1 1) (of_Z i))) [0; 1; 2; 3; 4]%Z)
            "Linac_1" "Dose_Output" sample_engine))
  = ["[Linac_1] Dose_Output: Significant Drift detected (Slope: 0.100/day)"].
Proof. split; vm_compute; reflexivity. Qed.

Example text_target_raises_in_the_loop fit :
  main fit (Return text_target_config) (Return [on_target]) = Raise TypeError.
Proof. vm_compute. reflexivity. Qed.

Example missing_configuration_file fit :
  main fit (Raise FileNotFoundError) (Return [on_target]) = Raise (SystemExit 1).
Proof. reflexivity. Qed.

(** * Instances of the theorems, and the inputs against C1, C4, C5, C7, C8,
      C9 and C10 *)

Lemma check_compliance_tolerance_witness :
  get_rule (rules sample_engine) "Linac_1" "Dose_Output"
  = Some (sample_rule (of_Z 100) (of_Z 2) "cGy") /\
  fle zero (of_Z 2) = true /\
  let deviation := fabs (fsub (dec 1045 1) (of_Z 100)) in
  let result :=
    fst (check_compliance "Linac_1" "Dose_Output" (dec 1045 1) sample_engine) in
  (result = Return (FAIL deviation) <-> fgt deviation (of_Z 2) = true) /\
  (is_nan deviation = false ->
   (result = Return "PASS" <-> fle deviation (of_Z 2) = true)) /\
  (feq deviation (of_Z 2) = true -> result = Return "PASS") /\
  (result = Return (FAIL deviation) \/ result = Return "PASS").
Proof.
  split; [vm_compute; reflexivity|].
  split; [vm_compute; reflexivity|].
  apply (check_compliance_tolerance sample_engine "Linac_1" "Dose_Output"
           (dec 1045 1) (sample_rule (of_Z 100) (of_Z 2) "cGy") (of_Z 100) (of_Z 2)).
  - vm_compute; reflexivity.
  - vm_compute; reflexivity.
  - vm_compute; reflexivity.
  - vm_compute; reflexivity.
Defined.

(** C1 fails on the code.  A blank reading (NaN) under the rule with target
    100 and tolerance 2 gets [PASS], although its deviation is not at most
    the tolerance.  And the deviation compared is the rounded difference:
    under the rule with target 0.1 and tolerance 1.0 the reading 1.1 gets
    [PASS], although the distance between the two numbers is greater than
    the tolerance. *)
Lemma nan_reading_passes :
  fle zero (of_Z 2) = true /\
  fst (check_compliance "Linac_1" "Dose_Output" NaN sample_engine) = Return "PASS" /\
  fle (fabs (fsub NaN (of_Z 100))) (of_Z 2) = false /\
  fst (check_compliance "Linac_1" "Symmetry" (dec 11 1) decimal_engine)
  = Return "PASS" /\
  (exact (of_Z 1) < Qabs (exact (dec 11 1) - exact (dec 1 1)))%Q.
Proof. repeat split; vm_compute; reflexivity. Qed.

Lemma check_compliance_negative_tolerance_witness :
  get_rule (rules negative_tolerance_engine) "Linac_1" "Dose_Output"
  = Some (sample_rule (of_Z 100) (of_Z (-2)) "cGy") /\
  fgt zero (of_Z (-2)) = true /\
  let deviation := fabs (fsub (dec 1002 1) (of_Z 100)) in
  (is_nan deviation = false ->
   fst (check_compliance "Linac_1" "Dose_Output" (dec 1002 1)
          negative_tolerance_engine)
   = Return (FAIL deviation)) /\
  (is_finite (of_Z 100) = true ->
   fabs (fsub (of_Z 100) (of_Z 100)) = zero /\
   fst (check_compliance "Linac_1" "Dose_Output" (of_Z 100)
          negative_tolerance_engine)
   = Return "FAIL (Dev: 0.00)").
Proof.
  split; [vm_compute; reflexivity|].
  split; [vm_compute; reflexivity|].
  apply (check_compliance_negative_tolerance negative_tolerance_engine
           "Linac_1" "Dose_Output" (dec 1002 1)
           (sample_rule (of_Z 100) (of_Z (-2)) "cGy") (of_Z 100) (of_Z (-2))).
  - vm_compute; reflexivity.
  - vm_compute; reflexivity.
  - vm_compute; reflexivity.
  - vm_compute; reflexivity.
Defined.

(** C10 fails on the code for a blank reading: with the tolerance -2 the
    reading NaN gets [PASS]. *)
Lemma negative_tolerance_nan_passes :
  fgt zero (of_Z (-2)) = true /\
  fst (check_compliance "Linac_1" "Dose_Output" NaN negative_tolerance_engine)
  = Return "PASS".
Proof. split; vm_compute; reflexivity. Qed.

Lemma analyze_drift_short_witness :
  (length [of_Z 0; of_Z 10; of_Z 20; of_Z 30] < 5)%nat /\
  analyze_drift ols_fit [day 0; day 1; day 2; day 3]
    [of_Z 0; of_Z 10; of_Z 20; of_Z 30] "CT_Scanner_A" "Water_HU" sample_engine
  = (Return tt, sample_engine) /\
  drift_alerts
    (snd (analyze_drift ols_fit [day 0; day 1; day 2; day 3]
            [of_Z 0; of_Z 10; of_Z 20; of_Z 30]
            "CT_Scanner_A" "Water_HU" sample_engine))
  = drift_alerts sample_engine.
Proof.
  split; [simpl; lia|].
  apply (analyze_drift_short ols_fit [day 0; day 1; day 2; day 3]
           [of_Z 0; of_Z 10; of_Z 20; of_Z 30]
           "CT_Scanner_A" "Water_HU" sample_engine).
  simpl; lia.
Defined.

(** The slope of [rising] comes out as the double 0.2. *)
Example rising_slope_value : rising_slope = dec 2 1.
Proof. vm_compute. reflexivity. Qed.

Lemma analyze_drift_threshold_witness :
  (5 <= length rising)%nat /\
  linregress ols_fit (dt_days five_days) rising = Return rising_slope /\
  let after :=
    analyze_drift ols_fit five_days rising "CT_Scanner_A" "Water_HU" sample_engine in
  fst after = Return tt /\
  (drift_alerts (snd after) <> drift_alerts sample_engine
   <-> fgt (fabs rising_slope) drift_threshold = true) /\
  (fgt (fabs rising_slope) drift_threshold = true ->
   snd after
   = with_alert sample_engine
       (drift_message "CT_Scanner_A" "Water_HU" rising_slope)) /\
  (fle (fabs rising_slope) drift_threshold = true -> snd after = sample_engine) /\
  (is_nan rising_slope = false ->
   (fgt (fabs rising_slope) drift_threshold = false
    <-> fle (fabs rising_slope) drift_threshold = true)) /\
  drift_threshold = S754_finite false 7205759403792794 (-56) /\
  (exact drift_threshold == 3602879701896397 # 36028797018963968)%Q.
Proof.
  split; [simpl; lia|].
  split; [vm_compute; reflexivity|].
  apply (analyze_drift_threshold ols_fit five_days rising "CT_Scanner_A" "Water_HU"
           sample_engine rising_slope).
  - simpl; lia.
  - vm_compute; reflexivity.
Defined.



Lemma run_checks_one_result_per_record_witness :
  numeric_config (rules sample_engine) /\
  exists annotated,
    run_checks [on_target; mkRecord (day 0) "MachineX" "MetricY" (of_Z 1)]
      sample_engine
    = (Return annotated, sample_engine) /\
    length annotated
    = length [on_target; mkRecord (day 0) "MachineX" "MetricY" (of_Z 1)] /\
    map fst annotated
    = [on_target; mkRecord (day 0) "MachineX" "MetricY" (of_Z 1)] /\
    forall i row,
      [on_target; mkRecord (day 0) "MachineX" "MetricY" (of_Z 1)] !! i = Some row ->
      exists status,
        annotated !! i = Some (row, status) /\
        fst (check_compliance (Machine_ID row) (Metric row) (Value row) sample_engine)
        = Return status.
Proof.
  split; [apply (bool_decide_unpack _); vm_compute; exact I|].
  apply (run_checks_one_result_per_record sample_engine
           [on_target; mkRecord (day 0) "MachineX" "MetricY" (of_Z 1)]).
  apply (bool_decide_unpack _); vm_compute; exact I.
Defined.

(** C8 fails on the code when a record meets a rule whose target is not a
    number: the compliance loop ends with the [TypeError] of the
    subtraction, and the record, like every other record of the input, is
    left without a result. *)
Lemma text_target_leaves_no_result :
  is_Some (get_rule (rules text_target_engine) "Linac_1" "Dose_Output") /\
  run_checks [on_target; on_target] text_target_engine
  = (Raise TypeError, text_target_engine) /\
  (forall fit,
     main fit (Return text_target_config) (Return [on_target; on_target])
     = Raise TypeError).
Proof.
  split; [eexists; vm_compute; reflexivity|].
  split; [vm_compute; reflexivity|].
  intros fit. vm_compute. reflexivity.
Qed.

(** C4, on the code.  Five records of one machine and metric, all dated the
    same day: the day offsets are all 0, the regression refuses them, and
    [analyze_drift] ends with the [ValueError] instead of returning; nothing
    in [main] catches it, so the run ends there. *)
Theorem analyze_drift_same_day_raises fit :
  dt_days (map Date same_day_log) = [0; 0; 0; 0; 0]%Z /\
  analyze_drift fit (map Date same_day_log) (map Value same_day_log)
    "Linac_1" "Dose_Output" sample_engine
  = (Raise ValueError, sample_engine) /\
  main fit (Return sample_config) (Return same_day_log) = Raise ValueError.
Proof.
  split; [vm_compute; reflexivity|].
  split; [|vm_compute; reflexivity].
  apply (analyze_drift_same_date _ _ _ _ _ _ (day 0)).
  - simpl; lia.
  - reflexivity.
  - vm_compute; reflexivity.
  - repeat constructor.
Qed.

(** C7 fails on the code: a configuration whose rule has a negative
    tolerance is loaded, the run goes on, and the rule shows in the status
    of a record that sits exactly on the target. *)
Lemma negative_tolerance_reaches_records :
  load_resources (Return negative_tolerance_config) (Return [on_target])
  = Return (negative_tolerance_engine, [on_target]) /\
  forall fit,
    main fit (Return negative_tolerance_config) (Return [on_target])
    = Return ([(on_target, "FAIL (Dev: 0.00)")], []).
Proof. split; [reflexivity|]. intros fit. vm_compute. reflexivity. Qed.

(** C9 fails on the code for [analyze_drift]: the call leaves an engine
    other than the one it was given, with the alert in its list. *)
Lemma analyze_drift_changes_engine :
  snd (analyze_drift ols_fit five_days rising "CT_Scanner_A" "Water_HU" sample_engine)
  <> sample_engine /\
  drift_alerts
    (snd (analyze_drift ols_fit five_days rising "CT_Scanner_A" "Water_HU"
            sample_engine))
  = ["[CT_Scanner_A] Water_HU: Significant Drift detected (Slope: 0.200/day)"] /\
  drift_alerts sample_engine = [].
Proof.
  assert (H : drift_alerts
    (snd (analyze_drift ols_fit five_days rising "CT_Scanner_A" "Water_HU"
            sample_engine))
    = ["[CT_Scanner_A] Water_HU: Significant Drift detected (Slope: 0.200/day)"])
    by (vm_compute; reflexivity).
  split; [|split; [exact H | reflexivity]].
  intros E. rewrite E in H. discriminate H.
Qed.

(** * Further properties of the code *)

(** ** [check_compliance]: malformed rules and blank readings *)

(** X1.  With a rule in the store, [check_compliance] reads ['target'], then
    ['tolerance_abs'], then subtracts and compares: a missing field raises
    [KeyError] naming the first field that is missing, a field that is not a
    number raises [TypeError]; in every case the engine is left as it was. *)
Theorem check_compliance_malformed_rule self machine metric value rule :
  get_rule (rules self) machine metric = Some rule ->
  let call := check_compliance machine metric value self in
  (rule !! "target" = None -> call = (Raise (KeyError "target"), self)) /\
  (is_Some (rule !! "target") -> rule !! "tolerance_abs" = None ->
   call = (Raise (KeyError "tolerance_abs"), self)) /\
  (forall target tol,
     rule !! "target" = Some target -> rule !! "tolerance_abs" = Some tol ->
     (forall q, target <> YNum q) -> call = (Raise TypeError, self)) /\
  (forall q tol,
     rule !! "target" = Some (YNum q) -> rule !! "tolerance_abs" = Some tol ->
     (forall q', tol <> YNum q') -> call = (Raise TypeError, self)).
Proof.
  intros Hr call. subst call. rewrite (check_compliance_present _ _ _ _ _ Hr).
  split; [|split; [|split]].
  - intros Ht. run_method. rewrite Ht. reflexivity.
  - intros [t Ht] Htol. run_method. rewrite Ht, Htol. reflexivity.
  - intros target tol Ht Htol Hnum. run_method. rewrite Ht, Htol. reduce.
    destruct target as [q|s|]; [destruct (Hnum q eq_refl) | reflexivity | reflexivity].
  - intros q tol Ht Htol Hnum. run_method. rewrite Ht, Htol. reduce.
    destruct tol as [q'|s|]; [destruct (Hnum q' eq_refl) | reflexivity | reflexivity].
Qed.

(** X2.  [check_compliance] answers with a status exactly when the pair has
    no rule or its rule has a number in both fields; in every other case it
    raises. *)
Theorem check_compliance_returns_iff self machine metric value :
  (exists status, fst (check_compliance machine metric value self) = Return status)
  <->
  (get_rule (rules self) machine metric = None \/
   exists rule, get_rule (rules self) machine metric = Some rule /\
                numeric_rule rule = true).
Proof.
  destruct (get_rule (rules self) machine metric) as [rule|] eqn:Hr.
  - rewrite (check_compliance_present _ _ _ _ _ Hr).
    assert (Hnum : numeric_rule rule
                   = match rule !! "target", rule !! "tolerance_abs" with
                     | Some (YNum _), Some (YNum _) => true
                     | _, _ => false
                     end) by reflexivity.
    unfold getitem, bind, ret, raise, py_sub, py_gt.
    destruct (rule !! "target") as [[t|s|]|] eqn:Ht;
      destruct (rule !! "tolerance_abs") as [[tol|s'|]|] eqn:Htol; reduce;
      try (split; [intros [status H]; discriminate H
                  | intros [H|(rule' & H & H')];
                    [discriminate H
                    | injection H as <-; rewrite Hnum in H'; discriminate H']]).
    split.
    + intros _. right. exists rule. split; [reflexivity | exact Hnum].
    + intros _. destruct (fgt (fabs (fsub value t)) tol); eauto.
  - rewrite (check_compliance_missing _ _ _ _ Hr). split; eauto.
Qed.

Lemma fsub_nan_l (a : float) : fsub NaN a = NaN.
Proof. reflexivity. Qed.

Lemma fsub_nan_r (a : float) : fsub a NaN = NaN.
Proof. destruct a; reflexivity. Qed.

Lemma fgt_nan_l (a : float) : fgt NaN a = false.
Proof. destruct a; reflexivity. Qed.

Lemma fgt_nan_r (a : float) : fgt a NaN = false.
Proof. destruct a; reflexivity. Qed.

(** X19.  NaN never fails: under a rule with numbers as target and
    tolerance, a blank reading (NaN) gets [PASS], and when the target or the
    tolerance of the rule is NaN every reading gets [PASS]. *)
Theorem check_compliance_nan_passes self machine metric rule target tol :
  get_rule (rules self) machine metric = Some rule ->
  rule !! "target" = Some (YNum target) ->
  rule !! "tolerance_abs" = Some (YNum tol) ->
  check_compliance machine metric NaN self = (Return "PASS", self) /\
  (is_nan target = true \/ is_nan tol = true ->
   forall value, check_compliance machine metric value self = (Return "PASS", self)).
Proof.
  intros Hr Ht Htol. split.
  - rewrite (check_compliance_numeric _ _ _ _ _ _ _ Hr Ht Htol).
    rewrite fsub_nan_l. change (fabs NaN) with NaN. rewrite fgt_nan_l. reflexivity.
  - intros Hnan value. rewrite (check_compliance_numeric _ _ _ _ _ _ _ Hr Ht Htol).
    destruct Hnan as [H|H].
    + destruct target; try discriminate H. fold NaN.
      rewrite fsub_nan_r. change (fabs NaN) with NaN. rewrite fgt_nan_l. reflexivity.
    + destruct tol; try discriminate H. fold NaN. rewrite fgt_nan_r. reflexivity.
Qed.

(** ** [analyze_drift]: what the dates contribute *)

(** X5.  Only the time elapsed since the earliest record counts: moving
    every date of a group by the same amount changes neither the outcome
    nor the alert. *)
Theorem analyze_drift_shift_dates fit (c : Z) dates values machine metric self :
  analyze_drift fit (map (Z.add c) dates) values machine metric self
  = analyze_drift fit dates values machine metric self.
Proof.
  destruct (Nat.ltb_spec (length values) 5) as [Hlt|Hge].
  - apply Nat.ltb_lt in Hlt.
    rewrite !(analyze_drift_below_minimum _ _ _ machine metric Hlt). reflexivity.
  - rewrite !(analyze_drift_long _ _ _ _ _ _ Hge), dt_days_shift. reflexivity.
Qed.

(** X6.  For a group of at least 5 records whose values are numbers, the
    analysis fails exactly when the group spans less than one whole day
    (latest date minus earliest date under 24 hours): it then raises the
    [ValueError] of the regression and the engine keeps its alerts as they
    were; with a span of a day or more it returns. *)
Theorem analyze_drift_raises_iff fit dates values machine metric self :
  (5 <= length values)%nat ->
  length dates = length values ->
  existsb is_nan values = false ->
  (fst (analyze_drift fit dates values machine metric self) = Raise ValueError
   <-> (span dates < ns_per_day)%Z) /\
  (fst (analyze_drift fit dates values machine metric self) = Return tt
   <-> (ns_per_day <= span dates)%Z) /\
  ((span dates < ns_per_day)%Z ->
   snd (analyze_drift fit dates values machine metric self) = self).
Proof.
  intros Hlen Hsame Hnan.
  rewrite (analyze_drift_by_span _ _ _ _ _ _ Hlen Hsame), Hnan.
  destruct (Z.ltb_spec (span dates) ns_per_day) as [H|H]; simpl.
  - split; [|split].
    + split; [intros _; exact H | reflexivity].
    + split; [discriminate | lia].
    + reflexivity.
  - split; [|split].
    + split; [discriminate | lia].
    + split; [intros _; exact H | reflexivity].
    + lia.
Qed.

(** X20.  A blank reading silences the trend of its group: when one of
    the values of a group of at least 5 records that spans a day or more is
    NaN, the analysis returns without an alert and leaves the engine as it
    was, whatever the other values are. *)
Theorem analyze_drift_nan_silent fit dates values machine metric self :
  (5 <= length values)%nat ->
  length dates = length values ->
  (ns_per_day <= span dates)%Z ->
  existsb is_nan values = true ->
  analyze_drift fit dates values machine metric self = (Return tt, self).
Proof.
  intros Hlen Hsame _ Hnan.
  rewrite (analyze_drift_by_span _ _ _ _ _ _ Hlen Hsame), Hnan. reflexivity.
Qed.

(** ** [groupby]: the groups of [main] *)

Lemma ascii_compare_refl (a : Ascii.ascii) : Ascii.compare a a = Eq.
Proof. unfold Ascii.compare. apply N.compare_refl. Qed.

Lemma ascii_compare_lt_trans (a b c : Ascii.ascii) :
  Ascii.compare a b = Lt -> Ascii.compare b c = Lt -> Ascii.compare a c = Lt.
Proof.
  unfold Ascii.compare. rewrite !N.compare_lt_iff. lia.
Qed.

Lemma string_compare_refl (a : string) : String.compare a a = Eq.
Proof.
  induction a as [|x a IH]; simpl; [reflexivity|].
  rewrite ascii_compare_refl. exact IH.
Qed.

Lemma string_compare_lt_trans (a b c : string) :
  String.compare a b = Lt -> String.compare b c = Lt -> String.compare a c = Lt.
Proof.
  revert b c. induction a as [|x a IH]; intros [|y b] [|z c]; simpl;
    try discriminate; try reflexivity.
  destruct (Ascii.compare x y) eqn:Hxy; try discriminate;
    destruct (Ascii.compare y z) eqn:Hyz; try discriminate.
  - apply Ascii.compare_eq_iff in Hxy, Hyz. subst y z.
    rewrite ascii_compare_refl. apply IH.
  - apply Ascii.compare_eq_iff in Hxy. subst y. rewrite Hyz. reflexivity.
  - apply Ascii.compare_eq_iff in Hyz. subst z. rewrite Hxy. reflexivity.
  - rewrite (ascii_compare_lt_trans x y z Hxy Hyz). reflexivity.
Qed.

Lemma key_compare_eq (a b : string * string) : key_compare a b = Eq -> a = b.
Proof.
  destruct a as [a1 a2], b as [b1 b2]. unfold key_compare. simpl.
  destruct (String.compare a1 b1) eqn:H1; try discriminate.
  intros H2. apply String.compare_eq_iff in H1, H2. subst. reflexivity.
Qed.

Lemma key_compare_refl (a : string * string) : key_compare a a = Eq.
Proof.
  destruct a as [a1 a2]. unfold key_compare. simpl.
  rewrite !string_compare_refl. reflexivity.
Qed.

Lemma key_compare_antisym (a b : string * string) :
  key_compare a b = CompOpp (key_compare b a).
Proof.
  destruct a as [a1 a2], b as [b1 b2]. unfold key_compare. simpl.
  rewrite (String.compare_antisym a1 b1), (String.compare_antisym a2 b2).
  destruct (String.compare b1 a1); reflexivity.
Qed.

Lemma key_lt_irrefl (a : string * string) : ~ key_lt a a.
Proof. unfold key_lt. rewrite key_compare_refl. discriminate. Qed.

Lemma key_lt_trans (a b c : string * string) :
  key_lt a b -> key_lt b c -> key_lt a c.
Proof.
  destruct a as [a1 a2], b as [b1 b2], c as [c1 c2].
  unfold key_lt, key_compare. simpl.
  destruct (String.compare a1 b1) eqn:H1; try discriminate;
    destruct (String.compare b1 c1) eqn:H2; try discriminate.
  - apply String.compare_eq_iff in H1, H2. subst b1 c1.
    rewrite string_compare_refl. apply string_compare_lt_trans.
  - apply String.compare_eq_iff in H1. subst b1. rewrite H2. reflexivity.
  - apply String.compare_eq_iff in H2. subst c1. rewrite H1. reflexivity.
  - rewrite (string_compare_lt_trans a1 b1 c1 H1 H2). reflexivity.
Qed.

Lemma insert_key_In (k x : string * string) (keys : list (string * string)) :
  In x (insert_key k keys) <-> x = k \/ In x keys.
Proof.
  induction keys as [|k' rest IH]; simpl; [intuition|].
  destruct (key_compare k k') eqn:Hc; simpl.
  - apply key_compare_eq in Hc. subst k'. intuition.
  - intuition.
  - rewrite IH. intuition.
Qed.

Lemma insert_key_sorted (k : string * string) (keys : list (string * string)) :
  StronglySorted key_lt keys -> StronglySorted key_lt (insert_key k keys).
Proof.
  induction 1 as [|k' rest Hs IH Hall]; simpl; [repeat constructor|].
  destruct (key_compare k k') eqn:Hc.
  - constructor; assumption.
  - constructor; [constructor; assumption|].
    constructor; [exact Hc|].
    eapply Forall_impl; [exact Hall|]. intros x Hx. exact (key_lt_trans _ _ _ Hc Hx).
  - constructor; [exact IH|].
    apply Forall_forall. intros x Hx%list_elem_of_In%insert_key_In.
    destruct Hx as [->|Hx].
    + unfold key_lt. rewrite key_compare_antisym, Hc. reflexivity.
    + rewrite Forall_forall in Hall. apply Hall, list_elem_of_In, Hx.
Qed.

Lemma group_keys_sorted (ks : list (string * string)) :
  StronglySorted key_lt (foldr insert_key [] ks).
Proof.
  induction ks as [|k ks IH]; simpl; [constructor | apply insert_key_sorted, IH].
Qed.

Lemma group_keys_In (ks : list (string * string)) (x : string * string) :
  In x (foldr insert_key [] ks) <-> In x ks.
Proof.
  induction ks as [|k ks IH]; simpl; [reflexivity|].
  rewrite insert_key_In, IH. intuition.
Qed.

Lemma sorted_keys_NoDup (keys : list (string * string)) :
  StronglySorted key_lt keys -> List.NoDup keys.
Proof.
  induction 1 as [|k rest Hs IH Hall]; constructor; [|exact IH].
  intros Hin. rewrite Forall_forall in Hall.
  exact (key_lt_irrefl k (Hall k (proj2 (list_elem_of_In _ _) Hin))).
Qed.

Lemma groupby_keys (df : list MeasurementRecord) :
  map fst (groupby df) = foldr insert_key [] (map record_key df).
Proof. unfold groupby. rewrite map_map. simpl. apply map_id. Qed.

Lemma groupby_In (df : list MeasurementRecord) k g :
  In (k, g) (groupby df) ->
  In k (map record_key df) /\ g = filter (fun row => record_key row = k) df.
Proof.
  unfold groupby. intros Hin. apply in_map_iff in Hin as (k' & E & Hk).
  injection E as <- <-. split; [|reflexivity].
  exact (proj1 (group_keys_In _ _) Hk).
Qed.

(** Filing one more row: exactly the group of its key grows. *)
Lemma groups_cons (row : MeasurementRecord) (df : list MeasurementRecord)
    (keys : list (string * string)) :
  List.NoDup keys -> In (record_key row) keys ->
  Permutation
    (flat_map (fun k => filter (fun r => record_key r = k) (row :: df)) keys)
    (row :: flat_map (fun k => filter (fun r => record_key r = k) df) keys).
Proof.
  induction 1 as [|k keys Hnot Hnd IH]; simpl; [tauto|].
  intros [->|Hin].
  - rewrite filter_cons_True by reflexivity. simpl. constructor.
    apply Permutation_app_head.
    assert (Hrest : forall ks, ~ In (record_key row) ks ->
              flat_map (fun k => filter (fun r => record_key r = k) (row :: df)) ks
              = flat_map (fun k => filter (fun r => record_key r = k) df) ks).
    { induction ks as [|k' ks IHks]; simpl; [reflexivity|]. intros Hn.
      rewrite filter_cons_False by (intros E; apply Hn; left; symmetry; exact E).
      rewrite IHks by tauto. reflexivity. }
    rewrite (Hrest keys Hnot). reflexivity.
  - rewrite filter_cons_False by (intros E; apply Hnot; rewrite <- E; exact Hin).
    rewrite (IH Hin). symmetry. apply Permutation_middle.
Qed.

Lemma groups_partition (df : list MeasurementRecord) (keys : list (string * string)) :
  List.NoDup keys -> (forall row, In row df -> In (record_key row) keys) ->
  Permutation (flat_map (fun k => filter (fun r => record_key r = k) df) keys) df.
Proof.
  intros Hnd. induction df as [|row df IH]; intros Hall.
  - assert (E : forall ks : list (string * string),
              flat_map (fun k => filter (fun r : MeasurementRecord => record_key r = k) [])
                ks = []).
    { induction ks as [|k ks IHk]; simpl; [reflexivity | exact IHk]. }
    rewrite E. constructor.
  - rewrite (groups_cons row df keys Hnd (Hall row (or_introl eq_refl))).
    constructor. apply IH. intros r Hr. apply Hall. right. exact Hr.
Qed.

(** X9.  [groupby] splits the rows by (machine, metric): the keys come in
    strictly ascending order without repetition, a group holds exactly the
    rows of its key in their order in the input and is never empty, every
    row sits in the group of its key, and the groups together are the input
    rows, each once. *)
Theorem groupby_partition (df : list MeasurementRecord) :
  StronglySorted key_lt (map fst (groupby df)) /\
  List.NoDup (map fst (groupby df)) /\
  (forall k g, In (k, g) (groupby df) ->
     g <> [] /\ g = filter (fun row => record_key row = k) df) /\
  (forall row, In row df ->
     exists g, In (record_key row, g) (groupby df) /\ In row g) /\
  Permutation (flat_map snd (groupby df)) df.
Proof.
  pose proof (group_keys_sorted (map record_key df)) as Hsorted.
  pose proof (sorted_keys_NoDup _ Hsorted) as Hnd.
  rewrite groupby_keys. split; [exact Hsorted | split; [exact Hnd|]].
  split; [|split].
  - intros k g Hin. destruct (groupby_In df k g Hin) as [Hk ->].
    split; [|reflexivity].
    apply in_map_iff in Hk as (row & Hkey & Hrow). intros E.
    apply (filter_nil_not_elem_of _ _ row E Hkey). apply list_elem_of_In, Hrow.
  - intros row Hrow.
    exists (filter (fun r => record_key r = record_key row) df). split.
    + unfold groupby. apply in_map_iff. exists (record_key row). split; [reflexivity|].
      apply (proj2 (group_keys_In _ _)), (in_map record_key), Hrow.
    + apply list_elem_of_In, list_elem_of_filter. split; [reflexivity|].
      apply list_elem_of_In, Hrow.
  - unfold groupby. rewrite flat_map_concat_map, map_map. simpl.
    rewrite <- flat_map_concat_map.
    apply groups_partition; [exact Hnd|].
    intros row Hrow. apply (proj2 (group_keys_In _ _)), (in_map record_key), Hrow.
Qed.


(** ** The two loops of [main] *)

Lemma trend_loop_skip fit machine metric group rest self :
  get_rule (rules self) machine metric = None ->
  trend_loop fit (((machine, metric), group) :: rest) self = trend_loop fit rest self.
Proof.
  unfold get_rule. intros Hr. simpl.
  unfold bind, get_rules, contains, getitem, ret.
  destruct (rules self !! machine) as [bm|]; [|reflexivity].
  rewrite Hr. reflexivity.
Qed.

Lemma trend_loop_step fit machine metric group rest self rule :
  get_rule (rules self) machine metric = Some rule ->
  trend_loop fit (((machine, metric), group) :: rest) self =
  match analyze_drift fit (map Date group) (map Value group) machine metric self with
  | (Return _, self') => trend_loop fit rest self'
  | (Raise e, self') => (Raise e, self')
  end.
Proof.
  intros (bm & E1 & E2)%get_rule_Some. simpl.
  unfold bind, get_rules, contains, getitem, ret.
  rewrite E1, E2. reflexivity.
Qed.

Lemma trend_loop_frame fit groups self :
  exists new_alerts,
    snd (trend_loop fit groups self)
    = mkEngine (db_path self) (rules self) (drift_alerts self ++ new_alerts) /\
    (length new_alerts <= length groups)%nat.
Proof.
  revert self. induction groups as [|[[machine metric] group] rest IH]; intros self.
  - exists []. split; [apply engine_eta | simpl; lia].
  - destruct (get_rule (rules self) machine metric) as [rule|] eqn:Hr.
    + rewrite (trend_loop_step _ _ _ _ _ _ _ Hr).
      destruct (analyze_drift_frame fit (map Date group) (map Value group)
                  machine metric)
        as (result & added & Hone & Hcall).
      rewrite Hcall. destruct result as [[]|e].
      * destruct (IH (mkEngine (db_path self) (rules self) (drift_alerts self ++ added)))
          as (new & Hnew & Hlen).
        exists (added ++ new). rewrite Hnew. simpl. rewrite app_assoc.
        split; [reflexivity|]. rewrite length_app. lia.
      * exists added. split; [reflexivity | simpl; lia].
    + rewrite (trend_loop_skip _ _ _ _ _ _ Hr).
      destruct (IH self) as (new & Hnew & Hlen).
      exists new. split; [exact Hnew | simpl; lia].
Qed.

(** X10.  The trend loop only ever extends the alert list: the alerts it
    finds in the engine stay where they are, in their order, it adds at most
    one per group after them, and it changes nothing else of the engine,
    whether it ends normally or with an exception. *)
Theorem trend_loop_alerts fit groups self :
  let after := snd (trend_loop fit groups self) in
  rules after = rules self /\
  db_path after = db_path self /\
  (length (drift_alerts self) <= length (drift_alerts after)
   <= length (drift_alerts self) + length groups)%nat /\
  take (length (drift_alerts self)) (drift_alerts after) = drift_alerts self.
Proof.
  intros after. subst after.
  destruct (trend_loop_frame fit groups self) as (new & -> & Hlen). simpl.
  split; [reflexivity | split; [reflexivity | split]].
  - rewrite length_app. lia.
  - apply take_app_length.
Qed.

(** X11.  Groups whose (machine, metric) pair has no rule are passed over:
    when no group has a rule the loop returns and leaves the engine as it
    is, whatever the dates and values of the rows. *)
Theorem trend_loop_unconfigured fit groups self :
  Forall (fun group => get_rule (rules self) (fst (fst group)) (snd (fst group)) = None)
    groups ->
  trend_loop fit groups self = (Return tt, self).
Proof.
  induction 1 as [|[[machine metric] group] rest Hr _ IH]; [reflexivity|].
  simpl in Hr. rewrite (trend_loop_skip _ _ _ _ _ _ Hr). exact IH.
Qed.

(** One group of the loop: with a rule, at least 5 rows and a span under a
    day the analysis raises, provided the values are numbers; in every other
    case it returns. *)
Lemma analyze_group fit machine metric group self :
  ((5 <= length group)%nat /\ (span (map Date group) < ns_per_day)%Z /\
   (existsb is_nan (map Value group) = false ->
    fst (analyze_drift fit (map Date group) (map Value group) machine metric self)
    = Raise ValueError) /\
   (existsb is_nan (map Value group) = true ->
    fst (analyze_drift fit (map Date group) (map Value group) machine metric self)
    = Return tt)) \/
  (~ ((5 <= length group)%nat /\ (span (map Date group) < ns_per_day)%Z) /\
   fst (analyze_drift fit (map Date group) (map Value group) machine metric self)
   = Return tt).
Proof.
  destruct (Nat.ltb_spec (length (map Value group)) 5) as [Hlt|Hge].
  - right. split; [rewrite length_map in Hlt; lia|].
    apply Nat.ltb_lt in Hlt.
    rewrite (analyze_drift_below_minimum _ _ _ machine metric Hlt). reflexivity.
  - rewrite (analyze_drift_by_span fit (map Date group) (map Value group)
               machine metric self Hge) by (rewrite !length_map; reflexivity).
    rewrite length_map in Hge.
    destruct (Z.ltb_spec (span (map Date group)) ns_per_day) as [H|H].
    + left. split; [exact Hge | split; [exact H|]].
      split; intros ->; reflexivity.
    + right. split; [lia|].
      destruct (existsb is_nan (map Value group)); reflexivity.
Qed.

Lemma analyze_drift_raises_ValueError fit dates values machine metric self e :
  fst (analyze_drift fit dates values machine metric self) = Raise e -> e = ValueError.
Proof.
  destruct (Nat.ltb_spec (length values) 5) as [Hlt|Hge].
  - apply Nat.ltb_lt in Hlt.
    rewrite (analyze_drift_below_minimum _ _ _ machine metric Hlt). discriminate.
  - rewrite (analyze_drift_long _ _ _ _ _ _ Hge). unfold linregress.
    destruct (negb (length (dt_days dates) =? length values)%nat);
      [simpl; congruence|].
    destruct (existsb is_nan values); [simpl; discriminate|].
    destruct (length (dt_days dates) <=? 1)%nat; [simpl; discriminate|].
    destruct ((amax (dt_days dates) =? amin (dt_days dates))%Z);
      [simpl; congruence|].
    destruct (fgt (fabs (fit (dt_days dates) values)) drift_threshold); discriminate.
Qed.

(** The loop returns when no group is refused. *)
Lemma trend_loop_returns fit groups self :
  Forall (fun group => ~ degenerate (rules self) group) groups ->
  fst (trend_loop fit groups self) = Return tt.
Proof.
  revert self. induction groups as [|[[machine metric] group] rest IH]; intros self.
  - reflexivity.
  - intros Hall. inversion Hall as [|? ? Hhead Hrest]; subst.
    destruct (get_rule (rules self) machine metric) as [rule|] eqn:Hr.
    + rewrite (trend_loop_step _ _ _ _ _ _ _ Hr).
      pose proof (analyze_drift_rules fit (map Date group) (map Value group)
                    machine metric self) as Hrules.
      destruct (analyze_group fit machine metric group self)
        as [(H5 & Hs & _)|[_ Hret]].
      * exfalso. apply Hhead. split; [simpl; rewrite Hr; eauto | split; assumption].
      * destruct (analyze_drift fit (map Date group) (map Value group)
                    machine metric self) as [[[]|e] self'];
          simpl in Hrules, Hret; [|discriminate Hret].
        apply IH. rewrite Hrules. exact Hrest.
    + rewrite (trend_loop_skip _ _ _ _ _ _ Hr). apply IH. exact Hrest.
Qed.

(** The loop ends with the [ValueError] when some group is refused. *)
Lemma trend_loop_raises fit groups self :
  Forall (fun group => existsb is_nan (map Value (snd group)) = false) groups ->
  Exists (degenerate (rules self)) groups ->
  fst (trend_loop fit groups self) = Raise ValueError.
Proof.
  revert self. induction groups as [|[[machine metric] group] rest IH]; intros self.
  - intros _ H. inversion H.
  - intros Hnum Hex. inversion Hnum as [|? ? Hhead Hrest]; subst. simpl in Hhead.
    destruct (get_rule (rules self) machine metric) as [rule|] eqn:Hr.
    + rewrite (trend_loop_step _ _ _ _ _ _ _ Hr).
      pose proof (analyze_drift_rules fit (map Date group) (map Value group)
                    machine metric self) as Hrules.
      destruct (analyze_group fit machine metric group self)
        as [(H5 & Hs & Hraise & _)|[Hgood Hret]].
      * specialize (Hraise Hhead).
        destruct (analyze_drift fit (map Date group) (map Value group)
                    machine metric self) as [[[]|e] self'];
          simpl in Hraise; [discriminate Hraise | exact Hraise].
      * destruct (analyze_drift fit (map Date group) (map Value group)
                    machine metric self) as [[[]|e] self'];
          simpl in Hrules, Hret; [|discriminate Hret].
        apply IH; [exact Hrest|]. rewrite Hrules.
        inversion Hex as [? ? Hd|]; [|assumption].
        destruct Hd as (_ & H5 & Hs). simpl in H5, Hs. tauto.
    + rewrite (trend_loop_skip _ _ _ _ _ _ Hr). apply IH; [exact Hrest|].
      inversion Hex as [? ? Hd|]; [|assumption].
      destruct Hd as ([rule Hrule] & _). simpl in Hrule. congruence.
Qed.

(** The groups of rows whose values are numbers hold numbers only. *)
Lemma existsb_is_nan_false (g : list MeasurementRecord) :
  no_nan g -> existsb is_nan (map Value g) = false.
Proof.
  induction 1 as [|row g Hrow _ IH]; simpl; [reflexivity|].
  rewrite Hrow, IH. reflexivity.
Qed.

Lemma groupby_no_nan (df : list MeasurementRecord) :
  no_nan df ->
  Forall (fun group => existsb is_nan (map Value (snd group)) = false) (groupby df).
Proof.
  intros Hdf. apply Forall_forall. intros [k g] Hin%list_elem_of_In.
  destruct (groupby_In df k g Hin) as [_ ->]. simpl.
  apply existsb_is_nan_false. unfold no_nan in *. rewrite Forall_forall in *.
  intros row Hrow%list_elem_of_filter. apply Hdf. tauto.
Qed.

Lemma run_checks_returns self df :
  numeric_config (rules self) ->
  exists annotated,
    run_checks df self = (Return annotated, self) /\ map fst annotated = df.
Proof.
  intros Hcfg.
  destruct (compliance_loop_statuses self df [] Hcfg) as (statuses & Hloop & Hall).
  simpl in Hloop. pose proof (Forall2_length _ _ _ Hall) as Hlen.
  exists (zip df statuses). split.
  - unfold run_checks, bind. rewrite Hloop. unfold set_QC_Status.
    rewrite <- Hlen, Nat.eqb_refl. reflexivity.
  - apply (fst_zip df statuses). lia.
Qed.

(** X12.  On a configuration whose rules are numeric the run ends in one of
    two ways.  If some group that has a rule and at least 5 rows spans less
    than one whole day, and the values of the rows are numbers, [main] ends
    with the [ValueError] of the regression and hands nothing over, the
    statuses included.  If there is no such group, it returns the input rows
    with their statuses and at most one alert per group. *)
Theorem main_outcome fit loaded df :
  numeric_config loaded ->
  (no_nan df -> Exists (degenerate loaded) (groupby df) ->
   main fit (Return loaded) (Return df) = Raise ValueError) /\
  (~ Exists (degenerate loaded) (groupby df) ->
   exists annotated alerts,
     main fit (Return loaded) (Return df) = Return (annotated, alerts) /\
     map fst annotated = df /\
     (length alerts <= length (groupby df))%nat).
Proof.
  intros Hcfg. set (engine := mkEngine "qc_history.db" loaded []).
  assert (Hmain : main fit (Return loaded) (Return df)
                  = hand_over (evaluate fit df engine)) by reflexivity.
  destruct (run_checks_returns engine df Hcfg) as (annotated & Hchecks & Hrows).
  pose proof (trend_loop_raises fit (groupby df) engine) as Hbad.
  pose proof (trend_loop_returns fit (groupby df) engine) as Hgood.
  destruct (trend_loop_frame fit (groupby df) engine) as (new & Hnew & Hlen).
  rewrite Hmain. unfold evaluate, bind. rewrite Hchecks.
  destruct (trend_loop fit (groupby df) engine) as [[[]|e] engine'];
    simpl in Hbad, Hgood, Hnew.
  - split.
    + intros Hnum Hex. discriminate (Hbad (groupby_no_nan df Hnum) Hex).
    + intros _. exists annotated, (drift_alerts engine'). simpl.
      split; [reflexivity | split; [exact Hrows|]].
      rewrite Hnew. simpl. exact Hlen.
  - split.
    + intros Hnum Hex. specialize (Hbad (groupby_no_nan df Hnum) Hex). simpl.
      congruence.
    + intros Hnot. apply Forall_Exists_neg in Hnot. discriminate (Hgood Hnot).
Qed.

Lemma compliance_loop_aborts self pre row post results e :
  (forall r, In r pre ->
     exists status,
       fst (check_compliance (Machine_ID r) (Metric r) (Value r) self)
       = Return status) ->
  fst (check_compliance (Machine_ID row) (Metric row) (Value row) self) = Raise e ->
  compliance_loop (pre ++ row :: post) results self = (Raise e, self).
Proof.
  revert results. induction pre as [|r pre IH]; intros results Hpre Hrow.
  - change (compliance_loop ([] ++ row :: post) results self)
      with (bind (check_compliance (Machine_ID row) (Metric row) (Value row))
              (fun status => compliance_loop post (results ++ [status])) self).
    unfold bind.
    pose proof (check_compliance_self (Machine_ID row) (Metric row) (Value row) self) as Hs.
    destruct (check_compliance (Machine_ID row) (Metric row) (Value row) self)
      as [o self'].
    simpl in Hrow, Hs. subst o self'. reflexivity.
  - change (compliance_loop ((r :: pre) ++ row :: post) results self)
      with (bind (check_compliance (Machine_ID r) (Metric r) (Value r))
              (fun status => compliance_loop (pre ++ row :: post) (results ++ [status]))
              self).
    unfold bind.
    pose proof (check_compliance_self (Machine_ID r) (Metric r) (Value r) self) as Hs.
    destruct (Hpre r (or_introl eq_refl)) as [status Hstatus].
    destruct (check_compliance (Machine_ID r) (Metric r) (Value r) self)
      as [o self'].
    simpl in Hstatus, Hs. subst o self'. apply IH; [|exact Hrow].
    intros r' Hr'. apply Hpre. right. exact Hr'.
Qed.


(** X13.  One record that meets a malformed rule ends the run: when the
    rows before it get their status and its own check raises, [main] ends
    with that exception and hands nothing over, the statuses already
    computed included. *)
Theorem main_aborts_on_malformed_rule fit loaded pre row post e :
  let engine := mkEngine "qc_history.db" loaded [] in
  (forall r, In r pre ->
     exists status,
       fst (check_compliance (Machine_ID r) (Metric r) (Value r) engine)
       = Return status) ->
  fst (check_compliance (Machine_ID row) (Metric row) (Value row) engine) = Raise e ->
  run_checks (pre ++ row :: post) engine = (Raise e, engine) /\
  main fit (Return loaded) (Return (pre ++ row :: post)) = Raise e.
Proof.
  intros engine Hpre Hrow.
  pose proof (compliance_loop_aborts engine pre row post [] e Hpre Hrow) as Hloop.
  assert (Hrun : run_checks (pre ++ row :: post) engine = (Raise e, engine)).
  { unfold run_checks, bind. rewrite Hloop. reflexivity. }
  split; [exact Hrun|].
  change (main fit (Return loaded) (Return (pre ++ row :: post)))
    with (hand_over (evaluate fit (pre ++ row :: post) engine)).
  unfold evaluate, bind. rewrite Hrun. reflexivity.
Qed.

(** ** [generate_plot] *)

Lemma generate_plot_cases pyplot df_subset machine metric self :
  (forall fig e, pyplot fig = Raise e -> is_Exception e = true) ->
  (generate_plot pyplot df_subset machine metric self = (Return None, self) /\
   forall rule target tol unit,
     get_rule (rules self) machine metric = Some rule ->
     rule !! "target" = Some (YNum target) ->
     rule !! "tolerance_abs" = Some (YNum tol) ->
     rule !! "unit" = Some unit ->
     pyplot (rule_figure df_subset machine metric target tol unit) <> Return tt) \/
  exists rule target tol unit,
    get_rule (rules self) machine metric = Some rule /\
    rule !! "target" = Some (YNum target) /\
    rule !! "tolerance_abs" = Some (YNum tol) /\
    rule !! "unit" = Some unit /\
    pyplot (rule_figure df_subset machine metric target tol unit) = Return tt /\
    generate_plot pyplot df_subset machine metric self
    = (Return (Some (rule_figure df_subset machine metric target tol unit)), self).
Proof.
  intros Hpy. unfold generate_plot, try_except, get_rule.
  unfold bind, get_rules, getitem, ret, raise, lift.
  destruct (rules self !! machine) as [bm|];
    [|left; split; [reflexivity | discriminate]].
  destruct (bm !! metric) as [rule|];
    [|left; split; [reflexivity | discriminate]].
  destruct (rule !! "target") as [target|] eqn:Ht;
    [|left; split; [reflexivity | intros ? ? ? ? [= <-]; congruence]].
  destruct (rule !! "tolerance_abs") as [tol|] eqn:Htol;
    [|left; split; [reflexivity | intros ? ? ? ? [= <-]; congruence]].
  destruct target as [t|st|]; destruct tol as [tl|stl|];
    try (left; split; [reflexivity | intros ? ? ? ? [= <-]; congruence]).
  reduce.
  destruct (rule !! "unit") as [unit|] eqn:Hu;
    [|left; split; [reflexivity | intros ? ? ? ? [= <-]; congruence]].
  fold (plot_path machine metric).
  change (mkFigure (map (fun row => (Date row, Value row)) df_subset)
            (YNum t) (YNum (fadd t tl)) (YNum (fsub t tl))
            ("QC Trend: " +:+ machine +:+ " - " +:+ metric) unit
            (plot_path machine metric))
    with (rule_figure df_subset machine metric t tl unit).
  destruct (pyplot (rule_figure df_subset machine metric t tl unit))
    as [[]|e] eqn:Hdraw.
  - right. exists rule, t, tl, unit. repeat split; try reflexivity; assumption.
  - left. rewrite (Hpy _ _ Hdraw). split; [reflexivity|].
    intros rule' t' tl' unit' [= <-] Ht' Htol' Hu'.
    rewrite Ht in Ht'. rewrite Htol in Htol'. rewrite Hu in Hu'.
    injection Ht' as <-. injection Htol' as <-. injection Hu' as <-.
    rewrite Hdraw. discriminate.
Qed.

(** X14.  [generate_plot] never raises and never changes the engine, as long
    as matplotlib and the file system fail with ordinary exceptions only.
    It saves a plot exactly when the pair has a rule with a numeric target
    and tolerance and a unit and the drawing succeeds; a missing rule, a
    field that is missing or not a number, a missing unit or a failed drawing
    all end in no plot. *)
Theorem generate_plot_contained pyplot df_subset machine metric self :
  (forall fig e, pyplot fig = Raise e -> is_Exception e = true) ->
  exists saved,
    generate_plot pyplot df_subset machine metric self = (Return saved, self) /\
    forall fig,
      saved = Some fig <->
      exists rule target tol unit,
        get_rule (rules self) machine metric = Some rule /\
        rule !! "target" = Some (YNum target) /\
        rule !! "tolerance_abs" = Some (YNum tol) /\
        rule !! "unit" = Some unit /\
        fig = rule_figure df_subset machine metric target tol unit /\
        pyplot fig = Return tt.
Proof.
  intros Hpy.
  destruct (generate_plot_cases pyplot df_subset machine metric self Hpy)
    as [[Hnone Hno]|(rule & target & tol & unit & Hr & Ht & Htol & Hu & Hdraw & Hsome)].
  - exists None. split; [exact Hnone|]. intros fig. split; [discriminate|].
    intros (rule & target & tol & unit & Hr & Ht & Htol & Hu & -> & Hdraw).
    destruct (Hno rule target tol unit Hr Ht Htol Hu Hdraw).
  - eexists. split; [exact Hsome|]. intros fig. split.
    + intros [= <-]. exists rule, target, tol, unit. auto 10.
    + intros (rule' & t' & tol' & unit' & Hr' & Ht' & Htol' & Hu' & -> & _).
      rewrite Hr in Hr'. injection Hr' as <-.
      rewrite Ht in Ht'. rewrite Htol in Htol'. rewrite Hu in Hu'.
      injection Ht' as <-. injection Htol' as <-. injection Hu' as <-.
      reflexivity.
Qed.

(** X15.  Whenever a plot is saved for a group, its target line is the
    target of the group's rule, its two limit lines are
    [target + tolerance_abs] and [target - tolerance_abs] as doubles, it
    shows the group's (date, value) points and it is saved under the path of
    the pair. *)
Theorem generate_plot_limits pyplot df_subset machine metric self fig :
  (forall fig e, pyplot fig = Raise e -> is_Exception e = true) ->
  fst (generate_plot pyplot df_subset machine metric self) = Return (Some fig) ->
  exists rule target tol,
    get_rule (rules self) machine metric = Some rule /\
    rule !! "target" = Some (YNum target) /\
    rule !! "tolerance_abs" = Some (YNum tol) /\
    target_line fig = YNum target /\
    upper_limit fig = YNum (fadd target tol) /\
    lower_limit fig = YNum (fsub target tol) /\
    measured fig = map (fun row => (Date row, Value row)) df_subset /\
    saved_as fig = plot_path machine metric.
Proof.
  intros Hpy Hfig.
  destruct (generate_plot_cases pyplot df_subset machine metric self Hpy)
    as [[Hnone _]|(rule & target & tol & unit & Hr & Ht & Htol & Hu & Hdraw & Hsome)].
  - rewrite Hnone in Hfig. discriminate Hfig.
  - rewrite Hsome in Hfig. simpl in Hfig. injection Hfig as <-.
    exists rule, target, tol. repeat split; assumption.
Qed.

(** X21.  The limit lines of the plot are not the boundary of [PASS].
    Under the rule with target 100 and tolerance 0.2 the upper line is drawn
    at the double 100.2 ([100 + 0.2] is that double); the reading 100.2 lies
    on the line and fails, because [100.2 - 100] is a little more than the
    double 0.2. *)
Theorem plotted_limit_fails :
  exists fig,
    generate_plot pyplot_ok [on_upper_limit] "Linac_1" "Dose_Output" decimal_engine
    = (Return (Some fig), decimal_engine) /\
    upper_limit fig = YNum (dec 1002 1) /\
    measured fig = [(day 0, dec 1002 1)] /\
    fgt (fsub (dec 1002 1) (of_Z 100)) (dec 2 1) = true /\
    run_checks [on_upper_limit] decimal_engine
    = (Return [(on_upper_limit, "FAIL (Dev: 0.20)")], decimal_engine).
Proof.
  eexists. split; [vm_compute; reflexivity|].
  repeat split; vm_compute; reflexivity.
Qed.

(** ** The data generator and the run on its output *)

Lemma generate_groups (draws : nat -> float) :
  length (generate draws) = 180%nat /\
  map (fun group => (fst group, length (snd group), span (map Date (snd group))))
    (groupby (generate draws))
  = [("CT_Scanner_A", "Water_HU", 30%nat, (29 * ns_per_day)%Z);
     ("Gamma_Cam_SPECT", "Uniformity", 30%nat, (29 * ns_per_day)%Z);
     ("Linac_1", "Dose_Output", 30%nat, (29 * ns_per_day)%Z);
     ("Linac_1", "Symmetry", 30%nat, (29 * ns_per_day)%Z);
     ("MRI_Scanner_3T", "Geometric_Distortion", 30%nat, (29 * ns_per_day)%Z);
     ("MRI_Scanner_3T", "SNR_Coil_1", 30%nat, (29 * ns_per_day)%Z)].
Proof. split; vm_compute; reflexivity. Qed.

(** X16.  Whatever the random draws, a run of [main] on the generated rows
    with a configuration of numeric rules ends normally: the generator
    writes 180 rows, 30 for each of six (machine, metric) pairs on 30
    consecutive days, so no group is refused by the regression, every row
    comes back with a status, and there are at most six alerts. *)
Theorem main_on_generated_data fit (draws : nat -> float) loaded :
  numeric_config loaded ->
  exists annotated alerts,
    main fit (Return loaded) (Return (generate draws)) = Return (annotated, alerts) /\
    map fst annotated = generate draws /\
    length annotated = 180%nat /\
    (length alerts <= 6)%nat.
Proof.
  intros Hcfg. set (engine := mkEngine "qc_history.db" loaded []).
  destruct (generate_groups draws) as [Hrows Hgroups].
  assert (Hsix : length (groupby (generate draws)) = 6%nat).
  { apply (f_equal (@length _)) in Hgroups. rewrite length_map in Hgroups.
    exact Hgroups. }
  assert (Hgood : Forall (fun group => ~ degenerate (rules engine) group)
                    (groupby (generate draws))).
  { apply Forall_forall. intros group Hin%list_elem_of_In (_ & _ & Hspan).
    apply (in_map (fun group => (fst group, length (snd group),
                                 span (map Date (snd group))))) in Hin.
    rewrite Hgroups in Hin. simpl in Hin.
    assert (E : span (map Date (snd group)) = (29 * ns_per_day)%Z)
      by (decompose [or] Hin; try tauto; congruence).
    rewrite E in Hspan. revert Hspan. vm_compute. discriminate. }
  destruct (run_checks_returns engine (generate draws) Hcfg)
    as (annotated & Hchecks & Hfst).
  pose proof (trend_loop_returns fit (groupby (generate draws)) engine Hgood)
    as Hreturns.
  destruct (trend_loop_frame fit (groupby (generate draws)) engine)
    as (new & Hnew & Hlen).
  change (main fit (Return loaded) (Return (generate draws)))
    with (hand_over (evaluate fit (generate draws) engine)).
  unfold evaluate, bind. rewrite Hchecks.
  destruct (trend_loop fit (groupby (generate draws)) engine) as [o engine'].
  simpl in Hreturns, Hnew. subst o engine'. simpl.
  exists annotated, new. split; [reflexivity | split; [exact Hfst | split]].
  - rewrite <- Hrows, <- Hfst, length_map. reflexivity.
  - lia.
Qed.

(** X17.  The readings the generator forces are there whatever the draws,
    and they fail as its comments intend: the Linac dose of the last day is
    104.5 and fails every rule with target 100 and a tolerance under 4.5;
    the MRI signal-to-noise of days 10 and 20 is 42 and fails every rule
    with target 50 and a tolerance under 8. *)
Theorem generate_forced_failures (draws : nat -> float) self :
  In (mkRecord (date_of 29) "Linac_1" "Dose_Output" (dec 1045 1)) (generate draws) /\
  In (mkRecord (date_of 10) "MRI_Scanner_3T" "SNR_Coil_1" (of_Z 42)) (generate draws) /\
  In (mkRecord (date_of 20) "MRI_Scanner_3T" "SNR_Coil_1" (of_Z 42)) (generate draws) /\
  (forall rule tol,
     get_rule (rules self) "Linac_1" "Dose_Output" = Some rule ->
     rule !! "target" = Some (YNum (of_Z 100)) ->
     rule !! "tolerance_abs" = Some (YNum tol) ->
     fgt (dec 45 1) tol = true ->
     fst (check_compliance "Linac_1" "Dose_Output" (dec 1045 1) self)
     = Return "FAIL (Dev: 4.50)") /\
  (forall rule tol,
     get_rule (rules self) "MRI_Scanner_3T" "SNR_Coil_1" = Some rule ->
     rule !! "target" = Some (YNum (of_Z 50)) ->
     rule !! "tolerance_abs" = Some (YNum tol) ->
     fgt (of_Z 8) tol = true ->
     fst (check_compliance "MRI_Scanner_3T" "SNR_Coil_1" (of_Z 42) self)
     = Return "FAIL (Dev: 8.00)").
Proof.
  assert (Hrow : forall (i : nat) row, generate draws !! i = Some row ->
                   In row (generate draws)).
  { intros i row H. apply list_elem_of_In, list_elem_of_lookup. eauto. }
  split; [apply (Hrow 58%nat); vm_compute; reflexivity|].
  split; [apply (Hrow 140%nat); vm_compute; reflexivity|].
  split; [apply (Hrow 160%nat); vm_compute; reflexivity|].
  split.
  - intros rule tol Hr Ht Htol Hlt.
    rewrite (check_compliance_numeric _ _ _ _ _ _ _ Hr Ht Htol). cbn [fst].
    assert (E : fabs (fsub (dec 1045 1) (of_Z 100)) = dec 45 1)
      by (vm_compute; reflexivity).
    rewrite E, Hlt. vm_compute. reflexivity.
  - intros rule tol Hr Ht Htol Hlt.
    rewrite (check_compliance_numeric _ _ _ _ _ _ _ Hr Ht Htol). cbn [fst].
    assert (E : fabs (fsub (of_Z 42) (of_Z 50)) = of_Z 8)
      by (vm_compute; reflexivity).
    rewrite E, Hlt. vm_compute. reflexivity.
Qed.

(** ** Where the plots are saved *)

Lemma append_assoc (a b c : string) : (a +:+ b) +:+ c = a +:+ (b +:+ c).
Proof.
  induction a as [|x a IH]; [reflexivity|].
  change (String x ((a +:+ b) +:+ c) = String x (a +:+ (b +:+ c))).
  rewrite IH. reflexivity.
Qed.

Lemma length_append (a b : string) :
  String.length (a +:+ b) = (String.length a + String.length b)%nat.
Proof.
  induction a as [|x a IH]; [reflexivity|].
  change (S (String.length (a +:+ b)) = S (String.length a + String.length b)).
  rewrite IH. reflexivity.
Qed.

(** X18.  The file name of a plot joins machine and metric with an
    underscore, so two different pairs can claim the same file: the pair
    (a_b, c) and the pair (a, b_c) are saved under one name, and the later
    plot replaces the earlier. *)
Theorem plot_path_shared (a b c : string) :
  (a +:+ "_" +:+ b, c) <> (a, b +:+ "_" +:+ c) /\
  plot_path (a +:+ "_" +:+ b) c = plot_path a (b +:+ "_" +:+ c).
Proof.
  split.
  - intros E. injection E as E _.
    apply (f_equal String.length) in E. rewrite length_append in E.
    simpl in E. lia.
  - unfold plot_path. rewrite !append_assoc. reflexivity.
Qed.


(** * Instances of the further properties *)

Lemma check_compliance_malformed_rule_witness :
  get_rule (rules no_target_engine) "Linac_1" "Dose_Output" = Some no_target_rule /\
  check_compliance "Linac_1" "Dose_Output" (of_Z 100) no_target_engine
  = (Raise (KeyError "target"), no_target_engine).
Proof.
  split; [vm_compute; reflexivity|].
  destruct (check_compliance_malformed_rule no_target_engine "Linac_1" "Dose_Output"
              (of_Z 100) no_target_rule) as [H _].
  - vm_compute; reflexivity.
  - apply H. vm_compute; reflexivity.
Defined.

Lemma check_compliance_nan_passes_witness :
  get_rule (rules sample_engine) "Linac_1" "Dose_Output"
  = Some (sample_rule (of_Z 100) (of_Z 2) "cGy") /\
  check_compliance "Linac_1" "Dose_Output" NaN sample_engine
  = (Return "PASS", sample_engine).
Proof.
  split; [vm_compute; reflexivity|].
  destruct (check_compliance_nan_passes sample_engine "Linac_1" "Dose_Output"
              (sample_rule (of_Z 100) (of_Z 2) "cGy") (of_Z 100) (of_Z 2)) as [H _].
  - vm_compute; reflexivity.
  - vm_compute; reflexivity.
  - vm_compute; reflexivity.
  - exact H.
Defined.

Lemma analyze_drift_raises_iff_witness :
  (5 <= length rising)%nat /\
  length five_days = length rising /\
  existsb is_nan rising = false /\
  (fst (analyze_drift ols_fit five_days rising "CT_Scanner_A" "Water_HU" sample_engine)
   = Raise ValueError <-> (span five_days < ns_per_day)%Z) /\
  (fst (analyze_drift ols_fit five_days rising "CT_Scanner_A" "Water_HU" sample_engine)
   = Return tt <-> (ns_per_day <= span five_days)%Z) /\
  ((span five_days < ns_per_day)%Z ->
   snd (analyze_drift ols_fit five_days rising "CT_Scanner_A" "Water_HU" sample_engine)
   = sample_engine).
Proof.
  split; [simpl; lia|].
  split; [reflexivity|].
  split; [vm_compute; reflexivity|].
  apply (analyze_drift_raises_iff ols_fit five_days rising "CT_Scanner_A" "Water_HU"
           sample_engine).
  - simpl; lia.
  - reflexivity.
  - vm_compute; reflexivity.
Defined.

Lemma analyze_drift_nan_silent_witness :
  (5 <= length rising_with_blank)%nat /\
  length five_days = length rising_with_blank /\
  (ns_per_day <= span five_days)%Z /\
  existsb is_nan rising_with_blank = true /\
  analyze_drift ols_fit five_days rising_with_blank "CT_Scanner_A" "Water_HU"
    sample_engine
  = (Return tt, sample_engine).
Proof.
  split; [simpl; lia|].
  split; [reflexivity|].
  split; [vm_compute; discriminate|].
  split; [reflexivity|].
  apply (analyze_drift_nan_silent ols_fit five_days rising_with_blank
           "CT_Scanner_A" "Water_HU" sample_engine).
  - simpl; lia.
  - reflexivity.
  - vm_compute; discriminate.
  - reflexivity.
Defined.

Lemma trend_loop_unconfigured_witness :
  trend_loop ols_fit (groupby unknown_rows) sample_engine = (Return tt, sample_engine).
Proof.
  apply (trend_loop_unconfigured ols_fit (groupby unknown_rows) sample_engine).
  replace (groupby unknown_rows) with [(("MachineX", "MetricY"), unknown_rows)]
    by (vm_compute; reflexivity).
  constructor; [vm_compute; reflexivity | constructor].
Defined.

Lemma main_outcome_witness :
  no_nan same_day_log /\
  Exists (degenerate sample_config) (groupby same_day_log) /\
  main ols_fit (Return sample_config) (Return same_day_log) = Raise ValueError.
Proof.
  assert (Hnum : no_nan same_day_log) by (repeat constructor).
  assert (Hbad : Exists (degenerate sample_config) (groupby same_day_log)).
  { apply Exists_exists. eexists. split; [left; reflexivity|].
    split; [|split].
    - eexists. vm_compute. reflexivity.
    - simpl; lia.
    - vm_compute. reflexivity. }
  split; [exact Hnum | split; [exact Hbad|]].
  destruct (main_outcome ols_fit sample_config same_day_log) as [H _].
  - apply (bool_decide_unpack _); vm_compute; exact I.
  - exact (H Hnum Hbad).
Defined.

Lemma main_aborts_on_malformed_rule_witness :
  run_checks ([on_target] ++ symmetry_row :: [on_target])
    (mkEngine "qc_history.db" mixed_config [])
  = (Raise TypeError, mkEngine "qc_history.db" mixed_config []) /\
  main ols_fit (Return mixed_config)
    (Return ([on_target] ++ symmetry_row :: [on_target]))
  = Raise TypeError.
Proof.
  apply (main_aborts_on_malformed_rule ols_fit mixed_config [on_target] symmetry_row
           [on_target] TypeError).
  - intros r [<-|[]]. eexists. vm_compute. reflexivity.
  - vm_compute. reflexivity.
Defined.

Lemma generate_plot_contained_witness :
  exists saved,
    generate_plot pyplot_ok [on_target] "Linac_1" "Dose_Output" sample_engine
    = (Return saved, sample_engine) /\
    forall fig,
      saved = Some fig <->
      exists rule target tol unit,
        get_rule (rules sample_engine) "Linac_1" "Dose_Output" = Some rule /\
        rule !! "target" = Some (YNum target) /\
        rule !! "tolerance_abs" = Some (YNum tol) /\
        rule !! "unit" = Some unit /\
        fig = rule_figure [on_target] "Linac_1" "Dose_Output" target tol unit /\
        pyplot_ok fig = Return tt.
Proof.
  apply (generate_plot_contained pyplot_ok [on_target] "Linac_1" "Dose_Output"
           sample_engine).
  intros fig e H. discriminate H.
Defined.

Lemma generate_plot_limits_witness :
  exists rule target tol,
    get_rule (rules decimal_engine) "Linac_1" "Dose_Output" = Some rule /\
    rule !! "target" = Some (YNum target) /\
    rule !! "tolerance_abs" = Some (YNum tol) /\
    target_line
      (rule_figure [on_target] "Linac_1" "Dose_Output" (of_Z 100) (dec 2 1)
         (YStr "cGy"))
    = YNum target /\
    upper_limit
      (rule_figure [on_target] "Linac_1" "Dose_Output" (of_Z 100) (dec 2 1)
         (YStr "cGy"))
    = YNum (fadd target tol) /\
    lower_limit
      (rule_figure [on_target] "Linac_1" "Dose_Output" (of_Z 100) (dec 2 1)
         (YStr "cGy"))
    = YNum (fsub target tol) /\
    measured
      (rule_figure [on_target] "Linac_1" "Dose_Output" (of_Z 100) (dec 2 1)
         (YStr "cGy"))
    = map (fun row => (Date row, Value row)) [on_target] /\
    saved_as
      (rule_figure [on_target] "Linac_1" "Dose_Output" (of_Z 100) (dec 2 1)
         (YStr "cGy"))
    = plot_path "Linac_1" "Dose_Output".
Proof.
  apply (generate_plot_limits pyplot_ok [on_target] "Linac_1" "Dose_Output"
           decimal_engine).
  - intros fig e H. discriminate H.
  - vm_compute. reflexivity.
Defined.

Lemma main_on_generated_data_witness :
  exists annotated alerts,
    main ols_fit (Return sample_config) (Return (generate no_noise))
    = Return (annotated, alerts) /\
    map fst annotated = generate no_noise /\
    length annotated = 180%nat /\
    (length alerts <= 6)%nat.
Proof.
  apply (main_on_generated_data ols_fit no_noise sample_config).
  apply (bool_decide_unpack _); vm_compute; exact I.
Defined.

Lemma generate_forced_failures_witness :
  In (mkRecord (date_of 29) "Linac_1" "Dose_Output" (dec 1045 1))
    (generate no_noise) /\
  fst (check_compliance "Linac_1" "Dose_Output" (dec 1045 1) sample_engine)
  = Return "FAIL (Dev: 4.50)".
Proof.
  destruct (generate_forced_failures no_noise sample_engine)
    as (Hin & _ & _ & Hdose & _).
  split; [exact Hin|].
  apply (Hdose (sample_rule (of_Z 100) (of_Z 2) "cGy") (of_Z 2)).
  - vm_compute; reflexivity.
  - vm_compute; reflexivity.
  - vm_compute; reflexivity.
  - vm_compute; reflexivity.
Defined.
